(** * Verification of the reddit / venmo Flask services

    A shallow embedding of [reddit/src/app.py] and [venmo/src/app.py]:
    the transactional decorator [with_db_connection], the request-scoped
    connection cache [get_db_connection] / [close_db_connection], the
    join-row aggregation of [get_all_post] / [get_post], the pagination
    arithmetic of [get_users], and the validating handlers
    [create_post], [post_comment], [edit_comment], [delete_post].

    Python objects are modelled by value; the objects that are shared
    and mutated (the connection kept in [flask.g]) live in an explicit
    heap indexed by identity.  The SQL engine behind psycopg2 is an
    interface ([Engine]); the driver protocol on top of it (parameter
    binding, commit, rollback, close) is modelled concretely.  A [str]
    is written as its UTF-8 bytes, a lone surrogate as the three bytes
    of its code point; the decimal-digit table of the Unicode database
    is a parameter ([UnicodeData]). *)

From stdpp Require Import gmap strings list fin_maps pretty.
From Stdlib Require Import ZArith Ascii.

Open Scope string_scope.
Open Scope list_scope.
Open Scope Z_scope.

(* ===================================================================== *)
(** ** Python strings: code points, [str.strip], [int(str)]              *)
(* ===================================================================== *)

(** A [str] is written as the bytes of its UTF-8 encoding.  [utf8_decode]
    cuts it into code points, each with the bytes that encode it; a byte
    that starts no well-formed sequence stands alone under the number
    [invalid_code_point], which is no code point. *)
Definition byte (a : ascii) : N := N_of_ascii a.

Definition is_continuation (a : ascii) : bool :=
  (128 <=? byte a)%N && (byte a <? 192)%N.

Definition invalid_code_point : N := 1114112.

Definition string_of_bytes (l : list ascii) : string :=
  String.string_of_list_ascii l.

Fixpoint utf8_decode (s : string) : list (N * string) :=
  match s with
  | EmptyString => []
  | String b0 rest =>
      let alone (_ : unit) :=
        (invalid_code_point, string_of_bytes [b0]) :: utf8_decode rest in
      if (byte b0 <? 128)%N then (byte b0, string_of_bytes [b0]) :: utf8_decode rest
      else if (byte b0 <? 192)%N then alone ()
      else if (byte b0 <? 224)%N then
        match rest with
        | String b1 rest1 =>
            let cp := ((byte b0 - 192) * 64 + (byte b1 - 128))%N in
            if is_continuation b1 && (128 <=? cp)%N
            then (cp, string_of_bytes [b0; b1]) :: utf8_decode rest1
            else alone ()
        | _ => alone ()
        end
      else if (byte b0 <? 240)%N then
        match rest with
        | String b1 (String b2 rest2) =>
            let cp := ((byte b0 - 224) * 4096 + (byte b1 - 128) * 64
                       + (byte b2 - 128))%N in
            if is_continuation b1 && is_continuation b2 && (2048 <=? cp)%N
            then (cp, string_of_bytes [b0; b1; b2]) :: utf8_decode rest2
            else alone ()
        | _ => alone ()
        end
      else if (byte b0 <? 248)%N then
        match rest with
        | String b1 (String b2 (String b3 rest3)) =>
            let cp := ((byte b0 - 240) * 262144 + (byte b1 - 128) * 4096
                       + (byte b2 - 128) * 64 + (byte b3 - 128))%N in
            if is_continuation b1 && is_continuation b2 && is_continuation b3
               && (65536 <=? cp)%N && (cp <? invalid_code_point)%N
            then (cp, string_of_bytes [b0; b1; b2; b3]) :: utf8_decode rest3
            else alone ()
        | _ => alone ()
        end
      else alone ()
  end.

(** The code points of a [str]. *)
Definition code_points (s : string) : list N := (utf8_decode s).*1.

(** [Py_UNICODE_ISSPACE], the white space of [str.isspace] and
    [str.strip]: TAB, LF, VT, FF, CR, FS, GS, RS, US, SPACE, NEL, NO-BREAK
    SPACE, OGHAM SPACE MARK, U+2000 .. U+200A, LINE and PARAGRAPH
    SEPARATOR, NARROW NO-BREAK SPACE, MEDIUM MATHEMATICAL SPACE and
    IDEOGRAPHIC SPACE. *)
Definition is_unicode_space (cp : N) : bool :=
  (((9 <=? cp) && (cp <=? 13)) || ((28 <=? cp) && (cp <=? 32))
   || (cp =? 133) || (cp =? 160) || (cp =? 5760)
   || ((8192 <=? cp) && (cp <=? 8202))
   || (cp =? 8232) || (cp =? 8233) || (cp =? 8239) || (cp =? 8287)
   || (cp =? 12288))%N.

(** [Py_ISSPACE], the white space of C's [isspace]: TAB, LF, VT, FF, CR
    and SPACE. *)
Definition is_c_space (c : N) : bool :=
  (((9 <=? c) && (c <=? 13)) || (c =? 32))%N.

Fixpoint drop_spaces (l : list (N * string)) : list (N * string) :=
  match l with
  | (cp, bytes) :: rest =>
      if is_unicode_space cp then drop_spaces rest else l
  | [] => []
  end.

Definition join_bytes (l : list (N * string)) : string :=
  foldr (λ chunk acc, chunk.2 +:+ acc) "" l.

(** [s.strip()] *)
Definition py_strip (s : string) : string :=
  join_bytes (rev (drop_spaces (rev (drop_spaces (utf8_decode s))))).

(** The decimal digit value of the code points beyond ASCII
    ([Py_UNICODE_TODECIMAL], from the Unicode database CPython is built
    with). *)
Class UnicodeData := {
  to_decimal : N → option N
}.

Section int_of_str.
Context {U : UnicodeData}.

(** What [int()] makes of a code point before it parses
    ([_PyUnicode_TransformDecimalAndSpaceToASCII]): ASCII stays, white
    space becomes a blank, a decimal digit becomes its ASCII digit and
    anything else a question mark. *)
Definition int_code (cp : N) : N :=
  if (cp <? 128)%N then cp
  else if (invalid_code_point <=? cp)%N then 63%N
  else if is_unicode_space cp then 32%N
  else match to_decimal cp with
       | Some d => if (d <? 10)%N then (48 + d)%N else 63%N
       | None => 63%N
       end.

Definition int_codes (s : string) : list N := int_code <$> code_points s.

End int_of_str.

Definition digit_of (c : N) : option Z :=
  if ((48 <=? c) && (c <=? 57))%N then Some (Z.of_N c - 48) else None.

Definition underscore : N := 95.
Definition plus_sign : N := 43.
Definition minus_sign : N := 45.

(** The digit part of a base-10 literal as [PyLong_FromString] scans it:
    digits in which single underscores may separate digits.  [count] is
    the number of digits read, [after_digit] tells whether the previous
    character was a digit. *)
Fixpoint parse_digits (l : list N) (acc : Z) (count : nat) (after_digit : bool)
  : option (Z * nat) :=
  match l with
  | [] => if after_digit then Some (acc, count) else None
  | c :: rest =>
      match digit_of c with
      | Some d => parse_digits rest (10 * acc + d) (S count) true
      | None =>
          if (c =? underscore)%N && after_digit
          then parse_digits rest acc count false
          else None
      end
  end.

(** [sys.int_info.default_max_str_digits] *)
Definition max_str_digits : nat := 4300.

Fixpoint drop_c_spaces (l : list N) : list N :=
  match l with
  | c :: rest => if is_c_space c then drop_c_spaces rest else l
  | [] => []
  end.

Definition strip_c_spaces (l : list N) : list N :=
  rev (drop_c_spaces (rev (drop_c_spaces l))).

(** [PyLong_FromString(..., 10)] on the transformed characters: white
    space on both sides, one sign, the digits, at most
    [max_str_digits] of them. *)
Definition int_of_codes (l : list N) : option Z :=
  let body := strip_c_spaces l in
  let '(negative, digits) :=
    match body with
    | c :: rest =>
        if (c =? plus_sign)%N then (false, rest)
        else if (c =? minus_sign)%N then (true, rest)
        else (false, body)
    | [] => (false, body)
    end in
  match parse_digits digits 0 0 false with
  | Some (v, k) =>
      if (k <=? max_str_digits)%nat
      then Some (if negative then - v else v)
      else None
  | None => None
  end.

(** [int(s)] for a [str] argument: [None] stands for [ValueError]. *)
Definition int_of_str `{UnicodeData} (s : string) : option Z :=
  int_of_codes (int_codes s).

(* ===================================================================== *)
(** ** Values in result rows                                             *)
(* ===================================================================== *)

(** A column value as psycopg2 hands it to Python: [None], an [int] or a
    [str]. *)
Inductive sqlval :=
| SNull
| SInt (n : Z)
| SText (s : string).

#[global] Instance sqlval_eq_dec : EqDecision sqlval.
Proof. solve_decision. Defined.

(** Python truth value: [None], [0] and [''] are false. *)
Definition truthy (v : sqlval) : bool :=
  match v with
  | SNull => false
  | SInt n => negb (n =? 0)
  | SText s => negb (String.eqb s "")
  end.

Definition is_null (v : sqlval) : bool :=
  match v with SNull => true | _ => false end.

(* ===================================================================== *)
(** ** The join-row aggregation of [get_all_post] and [get_post]         *)
(* ===================================================================== *)

(** One row of
    [SELECT p.id, p.upvotes, p.title, p.link, p.username,
            c.id, c.upvotes, c.text, c.username
     FROM posts p LEFT JOIN comments c ON p.id = c.post_id]:
    [row0 .. row4] are the post columns, [row5 .. row8] the comment
    columns (all [SNull] when the post has no comment). *)
Record JoinRow := mkJoinRow {
  row0 : sqlval; row1 : sqlval; row2 : sqlval; row3 : sqlval; row4 : sqlval;
  row5 : sqlval; row6 : sqlval; row7 : sqlval; row8 : sqlval
}.

(** The dict [{"id", "upvotes", "text", "username"}] *)
Record CommentObj := mkCommentObj {
  c_id : sqlval; c_upvotes : sqlval; c_text : sqlval; c_username : sqlval
}.

(** The dict [{"id", "upvotes", "title", "link", "username", "comments"}] *)
Record PostObj := mkPostObj {
  p_id : sqlval; p_upvotes : sqlval; p_title : sqlval; p_link : sqlval;
  p_username : sqlval; p_comments : list CommentObj
}.

(** [posts_dict]: a Python dict keeps its keys in insertion order, so it
    is an association list with unique keys, oldest key first. *)
Definition posts_dict := list (sqlval * PostObj).

(** [k in d] *)
Definition dict_contains (k : sqlval) (d : posts_dict) : bool :=
  bool_decide (k ∈ d.*1).

(** [d[k] = v]: a new key goes to the end, an existing key keeps its
    place. *)
Definition dict_setitem (k : sqlval) (v : PostObj) (d : posts_dict) : posts_dict :=
  if dict_contains k d
  then (λ e, if decide (e.1 = k) then (k, v) else e) <$> d
  else d ++ [(k, v)].

(** [d[k]["comments"].append(c)]: the object stored under [k] is mutated
    in place. *)
Definition append_comment (c : CommentObj) (p : PostObj) : PostObj :=
  mkPostObj (p_id p) (p_upvotes p) (p_title p) (p_link p) (p_username p)
            (p_comments p ++ [c]).

Definition dict_append_comment (k : sqlval) (c : CommentObj) (d : posts_dict)
  : posts_dict :=
  (λ e, if decide (e.1 = k) then (e.1, append_comment c e.2) else e) <$> d.

Definition new_post (row : JoinRow) : PostObj :=
  mkPostObj (row0 row) (row1 row) (row2 row) (row3 row) (row4 row) [].

Definition comment_of (row : JoinRow) : CommentObj :=
  mkCommentObj (row5 row) (row6 row) (row7 row) (row8 row).

(** The body of [for row in rows:] *)
Definition aggregate_step (d : posts_dict) (row : JoinRow) : posts_dict :=
  let post_id := row0 row in
  let d1 := if dict_contains post_id d then d
            else dict_setitem post_id (new_post row) d in
  if truthy (row5 row)
  then dict_append_comment post_id (comment_of row) d1
  else d1.

(** The loop, then [list(posts_dict.values())]. *)
Definition aggregate (rows : list JoinRow) : list PostObj :=
  (foldl aggregate_step [] rows).*2.

(* ===================================================================== *)
(** ** Python values of request bodies and responses                     *)
(* ===================================================================== *)

(** What [request.get_json()] returns and what [jsonify] takes: [None],
    [bool], [int], [str], [list] and [dict] with string keys. *)
#[warnings="-register-all"] Inductive json :=
| JNull
| JBool (b : bool)
| JInt (n : Z)
| JStr (s : string)
| JList (l : list json)
| JDict (m : gmap string json).

(** [bool(v)] *)
Definition json_truthy (v : json) : bool :=
  match v with
  | JNull => false
  | JBool b => b
  | JInt n => negb (n =? 0)
  | JStr s => negb (String.eqb s "")
  | JList l => match l with [] => false | _ => true end
  | JDict m => negb (Nat.eqb (size m) 0)
  end.

(** [type(v).__name__] *)
Definition type_name (v : json) : string :=
  match v with
  | JNull => "NoneType"
  | JBool _ => "bool"
  | JInt _ => "int"
  | JStr _ => "str"
  | JList _ => "list"
  | JDict _ => "dict"
  end.

Definition json_of_sql (v : sqlval) : json :=
  match v with
  | SNull => JNull
  | SInt n => JInt n
  | SText s => JStr s
  end.

(* ===================================================================== *)
(** ** Exceptions                                                        *)
(* ===================================================================== *)

(** The classes that occur; every one of them derives from [Exception]. *)
Inductive exn_class :=
| OperationalError | InterfaceError | DatabaseError | ProgrammingError
| TypeError | AttributeError | ValueError | IndexError | KeyError
| UnicodeEncodeError.

#[global] Instance exn_class_eq_dec : EqDecision exn_class.
Proof. solve_decision. Defined.

(** An exception object; [exn_msg e] is [str(e)]. *)
Record exn := mkExn { exn_cls : exn_class; exn_msg : string }.

Inductive outcome (A : Type) :=
| Normal (a : A)
| Raised (e : exn).
Arguments Normal {A} a.
Arguments Raised {A} e.

#[global] Instance outcome_mret : MRet outcome := @Normal.
#[global] Instance outcome_mbind : MBind outcome := λ A B f o,
  match o with
  | Normal a => f a
  | Raised e => Raised e
  end.

(** [obj.get(key)] *)
Definition py_get (obj : json) (key : string) : outcome json :=
  match obj with
  | JDict m => Normal (default JNull (m !! key))
  | _ => Raised (mkExn AttributeError
           ("'" +:+ type_name obj +:+ "' object has no attribute 'get'"))
  end.

(** [v.strip()] *)
Definition py_strip_method (v : json) : outcome string :=
  match v with
  | JStr s => Normal (py_strip s)
  | _ => Raised (mkExn AttributeError
           ("'" +:+ type_name v +:+ "' object has no attribute 'strip'"))
  end.

(* ===================================================================== *)
(** ** Flask view results                                                *)
(* ===================================================================== *)

(** What a view returns: [jsonify(body)] alone, or the pair
    [jsonify(body), status]. *)
Inductive view_rv :=
| Rv (body : json)
| RvStatus (body : json) (status : Z).

(** The status Flask sends: a response returned without a status keeps
    the default of [jsonify], 200. *)
Definition flask_status (rv : view_rv) : Z :=
  match rv with
  | Rv _ => 200
  | RvStatus _ status => status
  end.

Definition rv_body (rv : view_rv) : json :=
  match rv with
  | Rv b => b
  | RvStatus b _ => b
  end.

(** [{"error": msg}] *)
Definition error_body (msg : string) : json := JDict {[ "error" := JStr msg ]}.

(* ===================================================================== *)
(** ** The psycopg2 driver over an abstract SQL engine                   *)
(* ===================================================================== *)

(** A result row (a tuple). *)
Definition row := list sqlval.

(** [row[i]] *)
Definition row_get (r : row) (i : nat) : outcome sqlval :=
  match r !! i with
  | Some v => Normal v
  | None => Raised (mkExn IndexError "tuple index out of range")
  end.

(** The second argument of [cursor.execute]: absent, a tuple, or a bare
    [int] (what [(post_id)] without a trailing comma is). *)
Inductive sqlargs :=
| ArgsNone
| ArgsTuple (l : list json)
| ArgsInt (n : Z).

Inductive sql_result (S : Type) :=
| SqlOk (s : S) (rows : list row) (rowcount : Z)
| SqlError (msg : string).
Arguments SqlOk {S} s rows rowcount.
Arguments SqlError {S} msg.

(** The store and its SQL dialect: a statement with bound parameters
    runs on the state a transaction sees and gives the new state, the
    result set and the affected-row count, or fails. *)
Class Engine := {
  Store : Type;
  sql_execute : string → list json → Store → sql_result Store
}.

(** Does the statement hold a [%s]-style placeholder (a [%] that is not
    the escape [%%])? *)
Fixpoint has_placeholder (sql : string) : bool :=
  match sql with
  | EmptyString => false
  | String "%" (String "%" rest) => has_placeholder rest
  | String "%" _ => true
  | String _ rest => has_placeholder rest
  end.

(** Does the text hold a NUL character? *)
Fixpoint has_nul (s : string) : bool :=
  match s with
  | EmptyString => false
  | String a rest => (byte a =? 0)%N || has_nul rest
  end.

(** [s.encode('utf-8')] fails at the first run of surrogates (which a
    JSON body can carry as [\udXXX] escapes); the message names the
    surrogate, or the first and last position of the run. *)
Definition is_surrogate (cp : N) : bool :=
  ((55296 <=? cp) && (cp <=? 57343))%N.

Definition hex_digit (d : N) : ascii :=
  ascii_of_N (if (d <? 10)%N then 48 + d else 87 + d).

Definition hex4 (cp : N) : string :=
  string_of_bytes [hex_digit (cp / 4096 mod 16); hex_digit (cp / 256 mod 16);
                   hex_digit (cp / 16 mod 16); hex_digit (cp mod 16)].

Fixpoint surrogate_run (cps : list N) : nat :=
  match cps with
  | cp :: rest => if is_surrogate cp then S (surrogate_run rest) else 0
  | [] => 0
  end.

Fixpoint encode_error_at (cps : list N) (pos : nat) : option exn :=
  match cps with
  | [] => None
  | cp :: rest =>
      if is_surrogate cp then
        Some (mkExn UnicodeEncodeError
          match surrogate_run rest with
          | O =>
              "'utf-8' codec can't encode character '\u" +:+ hex4 cp
              +:+ "' in position " +:+ pretty pos
              +:+ ": surrogates not allowed"
          | S more =>
              "'utf-8' codec can't encode characters in position "
              +:+ pretty pos +:+ "-" +:+ pretty (pos + S more)%nat
              +:+ ": surrogates not allowed"
          end)
      else encode_error_at rest (S pos)
  end.

Definition encode_error (s : string) : option exn :=
  encode_error_at (code_points s) 0.

(** Adapting one parameter to SQL: psycopg2 has no adapter for a [dict],
    encodes a string and refuses one with a NUL character, and adapts a
    [list] item by item; the first failure is raised. *)
Fixpoint adapt_error (v : json) : option exn :=
  match v with
  | JDict _ => Some (mkExn ProgrammingError "can't adapt type 'dict'")
  | JStr s =>
      match encode_error s with
      | Some e => Some e
      | None =>
          if has_nul s
          then Some (mkExn ValueError
                 "A string literal cannot contain NUL (0x00) characters.")
          else None
      end
  | JList l =>
      (fix first_error (l : list json) : option exn :=
         match l with
         | [] => None
         | item :: rest =>
             match adapt_error item with
             | Some e => Some e
             | None => first_error rest
             end
         end) l
  | _ => None
  end.

(** The first parameter of a tuple that cannot be adapted. *)
Fixpoint adapt_all (l : list json) : option exn :=
  match l with
  | [] => None
  | v :: rest =>
      match adapt_error v with
      | Some e => Some e
      | None => adapt_all rest
      end
  end.

(** Parameter binding, done before the statement is sent: with
    placeholders psycopg2 indexes the arguments as a sequence, which a
    bare [int] is not, and adapts each parameter in turn.  (Every
    statement of the services that passes a tuple has as many
    placeholders as the tuple has items.) *)
Definition bind_args (sql : string) (args : sqlargs) : outcome (list json) :=
  match args with
  | ArgsNone => Normal []
  | ArgsTuple l =>
      match adapt_all l with
      | Some e => Raised e
      | None => Normal l
      end
  | ArgsInt _ =>
      if has_placeholder sql
      then Raised (mkExn TypeError "'int' object does not support indexing")
      else Normal []
  end.

Inductive event :=
| EvConnect (c : nat)
| EvCursor (c : nat)
| EvExecute (c : nat) (sql : string)
| EvCommit (c : nat)
| EvRollback (c : nat)
| EvCursorClose (c : nat)
| EvConnClose (c : nat).

#[global] Instance event_eq_dec : EqDecision event.
Proof. solve_decision. Defined.

(** A cursor object; it is local to one call of the decorated function. *)
Record Cursor := mkCursor {
  cur_conn : nat;
  cur_closed : bool;
  cur_rows : list row;
  cur_rowcount : Z
}.

(** A unit of work: what a view does with the cursor it is handed. *)
Inductive work (A : Type) : Type :=
| Ret (a : A)
| Raise (e : exn)
| Execute (sql : string) (args : sqlargs) (k : work A)
| Fetchall (k : list row → work A)
| Fetchone (k : option row → work A)
| Rowcount (k : Z → work A).
Arguments Ret {A} a.
Arguments Raise {A} e.
Arguments Execute {A} sql args k.
Arguments Fetchall {A} k.
Arguments Fetchone {A} k.
Arguments Rowcount {A} k.

Fixpoint work_bind {A B : Type} (f : A → work B) (m : work A) : work B :=
  match m with
  | Ret a => f a
  | Raise e => Raise e
  | Execute sql args k => Execute sql args (work_bind f k)
  | Fetchall k => Fetchall (λ rows, work_bind f (k rows))
  | Fetchone k => Fetchone (λ r, work_bind f (k r))
  | Rowcount k => Rowcount (λ n, work_bind f (k n))
  end.

#[global] Instance work_mret : MRet work := @Ret.
#[global] Instance work_mbind : MBind work := @work_bind.

(** An expression that may raise, evaluated inside a view. *)
Definition lift {A : Type} (o : outcome A) : work A :=
  match o with
  | Normal a => Ret a
  | Raised e => Raise e
  end.

(** [cursor.execute(sql)], [cursor.execute(sql, args)] *)
Definition execute (sql : string) (args : sqlargs) : work unit :=
  Execute sql args (Ret ()).
(** [cursor.fetchall()], [cursor.fetchone()], [cursor.rowcount] *)
Definition fetchall : work (list row) := Fetchall Ret.
Definition fetchone : work (option row) := Fetchone Ret.
Definition rowcount : work Z := Rowcount Ret.

Section driver.
Context {E : Engine}.

(** A connection object.  [conn_store] is the state its open transaction
    sees: the committed state plus the statements run since. *)
Record Connection := mkConnection {
  conn_store : Store;
  conn_closed : bool
}.

(** The process as one request sees it: the database, the connection
    objects created so far (an object's identity is its index), the
    ['conn'] entry of [flask.g], and the calls made on the driver. *)
Record World := mkWorld {
  db_reachable : bool;
  db_committed : Store;
  conns : list Connection;
  g_conn : option nat;
  trace : list event
}.

Definition set_conn (c : nat) (co : Connection) (w : World) : World :=
  mkWorld (db_reachable w) (db_committed w) (<[c := co]> (conns w))
          (g_conn w) (trace w).

Definition set_committed (s : Store) (w : World) : World :=
  mkWorld (db_reachable w) s (conns w) (g_conn w) (trace w).

Definition set_g (g : option nat) (w : World) : World :=
  mkWorld (db_reachable w) (db_committed w) (conns w) g (trace w).

Definition log (ev : event) (w : World) : World :=
  mkWorld (db_reachable w) (db_committed w) (conns w) (g_conn w)
          (trace w ++ [ev]).

(** Is [c] a connection that has not been closed? *)
Definition conn_open (c : nat) (w : World) : bool :=
  match conns w !! c with
  | Some co => negb (conn_closed co)
  | None => false
  end.

Definition already_closed : exn := mkExn InterfaceError "connection already closed".
Definition cursor_already_closed : exn := mkExn InterfaceError "cursor already closed".

(** [psycopg2.connect(...)]: a new connection object whose transaction
    starts from the committed state, or [OperationalError]. *)
Definition psycopg2_connect (w : World) : outcome nat * World :=
  if db_reachable w then
    let c := length (conns w) in
    (Normal c,
     log (EvConnect c)
       (mkWorld (db_reachable w) (db_committed w)
                (conns w ++ [mkConnection (db_committed w) false])
                (g_conn w) (trace w)))
  else (Raised (mkExn OperationalError "could not connect to server"), w).

(** [conn.cursor()] *)
Definition conn_cursor (c : nat) (w : World) : outcome Cursor * World :=
  if conn_open c w
  then (Normal (mkCursor c false [] (-1)), log (EvCursor c) w)
  else (Raised already_closed, w).

(** [conn.commit()]: what the transaction did becomes the committed
    state. *)
Definition conn_commit (c : nat) (w : World) : outcome unit * World :=
  match conns w !! c with
  | Some co =>
      if conn_closed co then (Raised already_closed, w)
      else (Normal (), log (EvCommit c) (set_committed (conn_store co) w))
  | None => (Raised already_closed, w)
  end.

(** [conn.rollback()]: the transaction is dropped. *)
Definition conn_rollback (c : nat) (w : World) : outcome unit * World :=
  match conns w !! c with
  | Some co =>
      if conn_closed co then (Raised already_closed, w)
      else (Normal (),
            log (EvRollback c)
              (set_conn c (mkConnection (db_committed w) false) w))
  | None => (Raised already_closed, w)
  end.

(** [conn.close()]: uncommitted work is dropped; closing a closed
    connection changes nothing. *)
Definition conn_close (c : nat) (w : World) : World :=
  log (EvConnClose c)
    (match conns w !! c with
     | Some co =>
         if conn_closed co then w
         else set_conn c (mkConnection (db_committed w) true) w
     | None => w
     end).

(** [cursor.close()] *)
Definition cursor_close (cur : Cursor) (w : World) : Cursor * World :=
  (mkCursor (cur_conn cur) true [] (cur_rowcount cur),
   log (EvCursorClose (cur_conn cur)) w).

(** [cursor.execute(sql, args)]: the arguments are bound first; only then
    does the statement go to the store. *)
Definition cursor_execute (sql : string) (args : sqlargs) (cur : Cursor) (w : World)
  : outcome unit * Cursor * World :=
  if cur_closed cur then (Raised cursor_already_closed, cur, w) else
  match conns w !! cur_conn cur with
  | None => (Raised already_closed, cur, w)
  | Some co =>
      if conn_closed co then (Raised already_closed, cur, w) else
      match bind_args sql args with
      | Raised e => (Raised e, cur, w)
      | Normal params =>
          let w1 := log (EvExecute (cur_conn cur) sql) w in
          match sql_execute sql params (conn_store co) with
          | SqlOk s rows n =>
              (Normal (), mkCursor (cur_conn cur) false rows n,
               set_conn (cur_conn cur) (mkConnection s false) w1)
          | SqlError msg => (Raised (mkExn DatabaseError msg), cur, w1)
          end
      end
  end.

(** Running a unit of work on a cursor. *)
Fixpoint run_work {A : Type} (m : work A) (cur : Cursor) (w : World)
  : outcome A * Cursor * World :=
  match m with
  | Ret a => (Normal a, cur, w)
  | Raise e => (Raised e, cur, w)
  | Execute sql args k =>
      match cursor_execute sql args cur w with
      | (Normal _, cur1, w1) => run_work k cur1 w1
      | (Raised e, cur1, w1) => (Raised e, cur1, w1)
      end
  | Fetchall k =>
      if cur_closed cur then (Raised cursor_already_closed, cur, w)
      else run_work (k (cur_rows cur))
             (mkCursor (cur_conn cur) false [] (cur_rowcount cur)) w
  | Fetchone k =>
      if cur_closed cur then (Raised cursor_already_closed, cur, w)
      else run_work (k (head (cur_rows cur)))
             (mkCursor (cur_conn cur) false (tail (cur_rows cur))
                       (cur_rowcount cur)) w
  | Rowcount k => run_work (k (cur_rowcount cur)) cur w
  end.

(* ===================================================================== *)
(** ** The session manager                                               *)
(* ===================================================================== *)

(** [get_db_connection()]: the connection cached in [g], opened on first
    use; [None] when the store cannot be reached. *)
Definition get_db_connection (w : World) : outcome (option nat) * World :=
  match g_conn w with
  | None =>
      match psycopg2_connect w with
      | (Normal c, w1) => (Normal (Some c), set_g (Some c) w1)
      | (Raised e, w1) =>
          if decide (exn_cls e = OperationalError)
          then (Normal None, w1)
          else (Raised e, w1)
      end
  | Some c => (Normal (Some c), w)
  end.

(** [close_db_connection(exception)], the [teardown_appcontext] hook of
    the reddit service. *)
Definition close_db_connection (w : World) : World :=
  match g_conn w with
  | Some c => conn_close c (set_g None w)
  | None => w
  end.

(** [with_db_connection(f)]: the decorated function. *)
Definition with_db_connection (f : work view_rv) (w : World)
  : outcome view_rv * World :=
  match get_db_connection w with
  | (Raised e, w1) => (Raised e, w1)
  | (Normal None, w1) =>
      (Normal (RvStatus (error_body "Could not connect to the database") 500), w1)
  | (Normal (Some conn), w1) =>
      match conn_cursor conn w1 with
      | (Raised e, w2) => (Raised e, w2)
      | (Normal cursor, w2) =>
          (* try: response = f(cursor, ...); conn.commit(); return response *)
          let '(tried, cursor1, w3) :=
            match run_work f cursor w2 with
            | (Normal response, cur, w) =>
                match conn_commit conn w with
                | (Normal _, w') => (Normal response, cur, w')
                | (Raised e, w') => (Raised e, cur, w')
                end
            | (Raised e, cur, w) => (Raised e, cur, w)
            end in
          (* except Exception as e: conn.rollback(); return ..., 500 *)
          let '(result, w4) :=
            match tried with
            | Normal response => (Normal response, w3)
            | Raised e =>
                match conn_rollback conn w3 with
                | (Normal _, w') =>
                    (Normal (RvStatus (error_body (exn_msg e)) 500), w')
                | (Raised e', w') => (Raised e', w')
                end
            end in
          (* finally: cursor.close(); conn.close() *)
          let '(_, w5) := cursor_close cursor1 w4 in
          (result, conn_close conn w5)
      end
  end.

(** One request to a decorated route of the reddit service: the view
    runs, then the application context is torn down. *)
Definition reddit_request (f : work view_rv) (w : World)
  : outcome view_rv * World :=
  let '(result, w1) := with_db_connection f w in
  (result, close_db_connection w1).

(** [get_db_connection()] of the venmo service.  It differs from the
    reddit one in the argument [cursor_factory=psycopg2.extras.DictCursor];
    the module imports [psycopg2] only, so [psycopg2.extras] is not
    bound and evaluating the argument raises [AttributeError] inside the
    [try], which catches [OperationalError] alone. *)
Definition psycopg2_extras_DictCursor : outcome unit :=
  Raised (mkExn AttributeError "module 'psycopg2' has no attribute 'extras'").

Definition venmo_get_db_connection (w : World) : outcome (option nat) * World :=
  match g_conn w with
  | None =>
      match
        match psycopg2_extras_DictCursor with
        | Normal _ => psycopg2_connect w
        | Raised e => (Raised e, w)
        end
      with
      | (Normal c, w1) => (Normal (Some c), set_g (Some c) w1)
      | (Raised e, w1) =>
          if decide (exn_cls e = OperationalError)
          then (Normal None, w1)
          else (Raised e, w1)
      end
  | Some c => (Normal (Some c), w)
  end.

(** [with_db_connection(f)] of the venmo service: the same text as the
    reddit one, around the venmo [get_db_connection]. *)
Definition venmo_with_db_connection (f : work view_rv) (w : World)
  : outcome view_rv * World :=
  match venmo_get_db_connection w with
  | (Raised e, w1) => (Raised e, w1)
  | (Normal None, w1) =>
      (Normal (RvStatus (error_body "Could not connect to the database") 500), w1)
  | (Normal (Some conn), w1) =>
      match conn_cursor conn w1 with
      | (Raised e, w2) => (Raised e, w2)
      | (Normal cursor, w2) =>
          let '(tried, cursor1, w3) :=
            match run_work f cursor w2 with
            | (Normal response, cur, w) =>
                match conn_commit conn w with
                | (Normal _, w') => (Normal response, cur, w')
                | (Raised e, w') => (Raised e, cur, w')
                end
            | (Raised e, cur, w) => (Raised e, cur, w)
            end in
          let '(result, w4) :=
            match tried with
            | Normal response => (Normal response, w3)
            | Raised e =>
                match conn_rollback conn w3 with
                | (Normal _, w') =>
                    (Normal (RvStatus (error_body (exn_msg e)) 500), w')
                | (Raised e', w') => (Raised e', w')
                end
            end in
          let '(_, w5) := cursor_close cursor1 w4 in
          (result, conn_close conn w5)
      end
  end.

(** One call of a decorated view of the venmo module in a fresh
    application context; the module registers no teardown hook.  (It
    registers its two views under one endpoint name, [get_users], which
    Flask refuses when the module is loaded: what is modelled is the
    functions the module defines.) *)
Definition venmo_request (f : work view_rv) (w : World)
  : outcome view_rv * World :=
  venmo_with_db_connection f w.

End driver.

(* ===================================================================== *)
(** ** The views of the reddit service                                   *)
(* ===================================================================== *)

(** The statements, with runs of white space written as one blank. *)
Definition sql_select_posts : string :=
  "SELECT p.id, p.upvotes, p.title, p.link, p.username, c.id, c.upvotes, c.text, c.username FROM posts as p LEFT JOIN comments c ON p.id = c.post_id".
Definition sql_select_post : string :=
  "SELECT p.id, p.upvotes, p.title, p.link, p.username, c.id, c.upvotes, c.text, c.username FROM posts as p LEFT JOIN comments c ON p.id = c.post_id WHERE p.id = %s;".
Definition sql_insert_post : string :=
  "INSERT INTO posts (title, link, username) VALUES (%s, %s, %s) RETURNING id, upvotes".
Definition sql_delete_post : string :=
  "DELETE from posts WHERE id = %s;".
Definition sql_insert_comment : string :=
  "INSERT INTO comments (post_id, text, username) VALUES (%s, %s, %s) RETURNING id".
Definition sql_update_comment : string :=
  "UPDATE comments SET text = %s WHERE post_id = %s and id = %s RETURNING id, post_id, text, username, upvotes".

(** Reading [row[0] .. row[8]] of one fetched tuple. *)
Definition join_row_of (r : row) : outcome JoinRow :=
  match r with
  | v0 :: v1 :: v2 :: v3 :: v4 :: v5 :: v6 :: v7 :: v8 :: _ =>
      Normal (mkJoinRow v0 v1 v2 v3 v4 v5 v6 v7 v8)
  | _ => Raised (mkExn IndexError "tuple index out of range")
  end.

Fixpoint join_rows (rows : list row) : outcome (list JoinRow) :=
  match rows with
  | [] => Normal []
  | r :: rest =>
      match join_row_of r, join_rows rest with
      | Normal j, Normal js => Normal (j :: js)
      | Raised e, _ => Raised e
      | _, Raised e => Raised e
      end
  end.

Definition comment_to_json (c : CommentObj) : json :=
  JDict (list_to_map
    [("id", json_of_sql (c_id c)); ("upvotes", json_of_sql (c_upvotes c));
     ("text", json_of_sql (c_text c)); ("username", json_of_sql (c_username c))]).

Definition post_to_json (p : PostObj) : json :=
  JDict (list_to_map
    [("id", json_of_sql (p_id p)); ("upvotes", json_of_sql (p_upvotes p));
     ("title", json_of_sql (p_title p)); ("link", json_of_sql (p_link p));
     ("username", json_of_sql (p_username p));
     ("comments", JList (comment_to_json <$> p_comments p))]).

(** The part shared by [get_all_post] and [get_post]: from the fetched
    rows to the response. *)
Definition posts_response (not_found : string) (rows : list row) : work view_rv :=
  match rows with
  | [] => Ret (RvStatus (error_body not_found) 404)
  | _ =>
      jrows ← lift (join_rows rows);
      Ret (RvStatus (JDict {[ "posts" := JList (post_to_json <$> aggregate jrows) ]}) 200)
  end.

Definition get_all_post : work view_rv :=
  execute sql_select_posts ArgsNone;;
  rows ← fetchall;
  posts_response "No post not found" rows.

Definition get_post (post_id : Z) : work view_rv :=
  execute sql_select_post (ArgsTuple [JInt post_id]);;
  rows ← fetchall;
  posts_response ("No post not found with id = " +:+ pretty post_id) rows.

Definition create_post (post_data : json) : work view_rv :=
  title ← lift (v ← py_get post_data "title"; py_strip_method v);
  username ← lift (v ← py_get post_data "username"; py_strip_method v);
  link ← lift (v ← py_get post_data "link"; py_strip_method v);
  if String.eqb title "" || String.eqb username "" || String.eqb link ""
  then Ret (RvStatus (error_body "Title, link, username are required") 400)
  else
    execute sql_insert_post (ArgsTuple [JStr title; JStr link; JStr username]);;
    new_post_data ← fetchone;
    match new_post_data with
    | Some (new_post_id :: new_post_upvotes :: _) =>
        Ret (RvStatus (JDict {[ "post" := JDict (list_to_map
               [("id", json_of_sql new_post_id);
                ("upvotes", json_of_sql new_post_upvotes);
                ("title", JStr title); ("username", JStr username);
                ("link", JStr link)]) ]}) 201)
    | _ => Ret (RvStatus (error_body "Failed to create post, no data returned") 500)
    end.

Definition delete_post (post_id : Z) : work view_rv :=
  execute sql_delete_post (ArgsInt post_id);;
  n ← rowcount;
  if n =? 0
  then Ret (RvStatus (error_body "Post not found") 404)
  else Ret (RvStatus (JDict {[ "message" := JStr "Order deleted successfully" ]}) 200).

(** [cursor.fetchone()[0]] *)
Definition first_column (r : option row) : outcome sqlval :=
  match r with
  | None => Raised (mkExn TypeError "'NoneType' object is not subscriptable")
  | Some t => row_get t 0
  end.

Definition post_comment (post_id : Z) (comment_post_data : json) : work view_rv :=
  text ← lift (py_get comment_post_data "text");
  username ← lift (py_get comment_post_data "username");
  if negb (json_truthy text) || negb (json_truthy username)
  then Ret (RvStatus (error_body "Text, or username field not provided") 400)
  else
    execute sql_insert_comment (ArgsTuple [JInt post_id; text; username]);;
    r ← fetchone;
    new_comment_id ← lift (first_column r);
    if truthy new_comment_id
    then Ret (RvStatus (JDict (list_to_map
           [("id", json_of_sql new_comment_id); ("post_id", JInt post_id);
            ("upvotes", JInt 0); ("text", text); ("username", username)])) 201)
    else Ret (RvStatus (error_body "Failed to create comment.") 500).

Definition edit_comment (post_id comments_id : Z) (comment_data : json)
  : work view_rv :=
  text ← lift (py_get comment_data "text");
  if negb (json_truthy text)
  then Ret (Rv (error_body "Text fields are required"))
  else
    execute sql_update_comment (ArgsTuple [text; JInt post_id; JInt comments_id]);;
    updated_comments ← fetchone;
    match updated_comments with
    | Some ((_ :: _) as u) =>
        v0 ← lift (row_get u 0); v1 ← lift (row_get u 1);
        v2 ← lift (row_get u 2); v3 ← lift (row_get u 3);
        v4 ← lift (row_get u 4);
        Ret (RvStatus (JDict (list_to_map
          [("id", json_of_sql v0); ("post_id", json_of_sql v1);
           ("text", json_of_sql v2); ("username", json_of_sql v3);
           ("upvotes", json_of_sql v4)])) 200)
    | _ => Ret (RvStatus (error_body "Comment not found") 404)
    end.

(* ===================================================================== *)
(** ** The paginated view of the venmo service                           *)
(* ===================================================================== *)

Definition sql_select_users : string :=
  "SELECT * from users WHERE deleted_at IS NULL LIMIT %s OFFSET %s".
Definition sql_count_users : string :=
  "SELCT COUNT(*) FROM users WHERE deleted_at IS NULL".

Section venmo_views.
Context {U : UnicodeData}.

(** [int(request.args.get(key, dflt))]: a query parameter is a [str], the
    default an [int].  The view reads the class of the error only; the
    message is the one of a short text that [repr] leaves as it is. *)
Definition int_arg (args : gmap string string) (key : string) (dflt : Z)
  : outcome Z :=
  match args !! key with
  | None => Normal dflt
  | Some s =>
      match int_of_str s with
      | Some n => Normal n
      | None => Raised (mkExn ValueError
                  ("invalid literal for int() with base 10: '" +:+ s +:+ "'"))
      end
  end.

(** The body of the [try] of [get_users]. *)
Definition page_parameters (args : gmap string string) : outcome (Z * Z) :=
  let default_page_size := 5 in
  let default_page_number := 1 in
  match int_arg args "pageSize" default_page_size with
  | Raised e => Raised e
  | Normal page_size =>
      match int_arg args "pageNumber" default_page_number with
      | Raised e => Raised e
      | Normal page_number =>
          if (page_size <=? 0) || (page_number <=? 0)
          then Raised (mkExn ValueError
                 "pageSize and pageNumber must be positive integers")
          else Normal (page_size, page_number)
      end
  end.

(** What [get_users] does before its first statement: the 400 response,
    or the pair [(page_size, offset)] bound to [LIMIT] and [OFFSET],
    together with the page number. *)
Inductive pagination :=
| InvalidPagination (response : view_rv)
| Page (limit offset page_number : Z).

Definition get_users_pagination (args : gmap string string) : outcome pagination :=
  match page_parameters args with
  | Raised e =>
      if decide (exn_cls e = ValueError)
      then Normal (InvalidPagination
             (RvStatus (error_body "Invalid pagination parameters") 400))
      else Raised e
  | Normal (page_size, page_number) =>
      let offset := (page_number - 1) * page_size in
      Normal (Page page_size offset page_number)
  end.

(** [cursor.fetchone()['count']], on a row of the [DictCursor] that the
    venmo [get_db_connection] asks for: the column named [count], which
    is the only column of the row of a count statement; a row of another
    shape has no such column. *)
Definition count_column (r : option row) : outcome sqlval :=
  match r with
  | None => Raised (mkExn TypeError "'NoneType' object is not subscriptable")
  | Some t =>
      match t with
      | [total] => Normal total
      | _ => Raised (mkExn KeyError "'count'")
      end
  end.

Definition rows_to_json (rows : list row) : json :=
  JList ((λ r : row, JList (json_of_sql <$> r)) <$> rows).

(** The second [get_users], which replaces the first one of the module. *)
Definition get_users (args : gmap string string) : work view_rv :=
  p ← lift (get_users_pagination args);
  match p with
  | InvalidPagination response => Ret response
  | Page page_size offset page_number =>
      execute sql_select_users (ArgsTuple [JInt page_size; JInt offset]);;
      users ← fetchall;
      execute sql_count_users ArgsNone;;
      r ← fetchone;
      total_records ← lift (count_column r);
      Ret (RvStatus (JDict (list_to_map
        [("data", rows_to_json users);
         ("pagination", JDict (list_to_map
            [("pageNumber", JInt page_number); ("pageSize", JInt page_size);
             ("totalRecords", json_of_sql total_records)]))])) 200)
  end.

End venmo_views.

(* ===================================================================== *)
(** ** A small engine for running the model on concrete requests         *)
(* ===================================================================== *)

(** A store that only remembers the ids of its posts.  [INSERT] adds the
    next id, [DELETE] removes the id it is given, [SELECT] lists one
    comment-less join row per post, anything else is a syntax error. *)
Definition demo_post_row (i : Z) : row :=
  [SInt i; SInt 0; SText "title"; SText "link"; SText "user";
   SNull; SNull; SNull; SNull].

Definition demo_execute (sql : string) (params : list json) (s : list Z)
  : sql_result (list Z) :=
  if String.prefix "INSERT" sql then
    let i := foldr Z.max 0 s + 1 in
    SqlOk (s ++ [i]) [[SInt i; SInt 0]] 1
  else if String.prefix "DELETE" sql then
    match params with
    | [JInt i] =>
        SqlOk (filter (λ j, j ≠ i) s) []
              (Z.of_nat (length (filter (λ j, j = i) s)))
    | _ => SqlError "bad parameters"
    end
  else if String.prefix "SELECT" sql then
    SqlOk s (demo_post_row <$> s) (Z.of_nat (length s))
  else SqlError "syntax error".

Definition demo_engine : Engine :=
  {| Store := list Z; sql_execute := demo_execute |}.

(** A digit table with the ARABIC-INDIC and the FULLWIDTH digits. *)
Definition demo_unicode : UnicodeData :=
  {| to_decimal := λ cp,
       if ((1632 <=? cp) && (cp <=? 1641))%N then Some (cp - 1632)%N
       else if ((65296 <=? cp) && (cp <=? 65305))%N then Some (cp - 65296)%N
       else None |}.

(** A world in which no request has run yet. *)
Definition demo_world (reachable : bool) (s : list Z) : @World demo_engine :=
  @mkWorld demo_engine reachable s [] None [].

(* ===================================================================== *)
(** ** Notions used to state what the aggregation computes               *)
(* ===================================================================== *)

(** The values of a list in order of first appearance. *)
Fixpoint first_seen (ids : list sqlval) : list sqlval :=
  match ids with
  | [] => []
  | k :: rest => k :: filter (λ k', k' ≠ k) (first_seen rest)
  end.

(** For every parent id the first row that bears it, in order of first
    appearance. *)
Fixpoint first_rows (rows : list JoinRow) : list JoinRow :=
  match rows with
  | [] => []
  | r :: rest => r :: filter (λ r', row0 r' ≠ row0 r) (first_rows rest)
  end.

(** The rows of parent [k], in input order. *)
Definition rows_of (k : sqlval) (rows : list JoinRow) : list JoinRow :=
  filter (λ r, row0 r = k) rows.

(** The rows of parent [k] whose child id is true in Python's sense, and
    those whose child id is not null. *)
Definition child_rows (k : sqlval) (rows : list JoinRow) : list JoinRow :=
  filter (λ r, row0 r = k ∧ truthy (row5 r) = true) rows.

Definition non_null_child_rows (k : sqlval) (rows : list JoinRow) : list JoinRow :=
  filter (λ r, row0 r = k ∧ is_null (row5 r) = false) rows.

(** The parent object built from its first row [r] and all the rows. *)
Definition post_for (rows : list JoinRow) (r : JoinRow) : PostObj :=
  mkPostObj (row0 r) (row1 r) (row2 r) (row3 r) (row4 r)
            (comment_of <$> child_rows (row0 r) rows).

(** The scalar fields of a parent object and of a row. *)
Definition post_scalars (p : PostObj) : sqlval * sqlval * sqlval * sqlval :=
  (p_upvotes p, p_title p, p_link p, p_username p).

Definition row_scalars (r : JoinRow) : sqlval * sqlval * sqlval * sqlval :=
  (row1 r, row2 r, row3 r, row4 r).

(** Row [r] with other parent scalar fields. *)
Definition with_scalars (s : sqlval * sqlval * sqlval * sqlval) (r : JoinRow)
  : JoinRow :=
  let '(upvotes, title, link, username) := s in
  mkJoinRow (row0 r) upvotes title link username
            (row5 r) (row6 r) (row7 r) (row8 r).

(** Sample join rows: post 1 with a comment whose id is 0; post 1 without
    a comment; a later row of post 1 that carries other parent fields. *)
Definition row_comment_zero : JoinRow :=
  mkJoinRow (SInt 1) (SInt 3) (SText "T1") (SText "http://t1") (SText "a")
            (SInt 0) (SInt 2) (SText "hi") (SText "bob").

Definition row_post_one : JoinRow :=
  mkJoinRow (SInt 1) (SInt 3) (SText "T1") (SText "l1") (SText "a")
            SNull SNull SNull SNull.

Definition row_post_one_later : JoinRow :=
  mkJoinRow (SInt 1) (SInt 9) (SText "other") (SText "l2") (SText "z")
            (SInt 10) (SInt 0) (SText "hi") (SText "bob").

(* ===================================================================== *)
(** ** Notions used to state what the session manager does               *)
(* ===================================================================== *)

(** The statement events of connection [c]. *)
Definition is_execute_of (c : nat) (ev : event) : Prop :=
  ∃ sql, ev = EvExecute c sql.

(** The cursor [conn.cursor()] returns for connection [c]. *)
Definition fresh_cursor (c : nat) : Cursor := mkCursor c false [] (-1).

(** The status of the response, when the decorated function returns. *)
Definition response_status (o : outcome view_rv) : option Z :=
  match o with
  | Normal rv => Some (flask_status rv)
  | Raised _ => None
  end.

(** How often [conn.close()] was called on connection [c]. *)
Definition close_calls (c : nat) (evs : list event) : nat :=
  length (filter (λ ev, ev = EvConnClose c) evs).

Section session_notions.
Context {E : Engine}.

(** The state the transaction of connection [c] sees. *)
Definition transaction_state (c : nat) (w : World) : option Store :=
  conn_store <$> conns w !! c.

(** The world after the decorated function is done with connection [c]:
    [s] is the committed state, the connection is closed, and [ev]
    (commit or rollback), then the two [close] calls of the [finally],
    are on the trace. *)
Definition finished (c : nat) (ev : event) (s : Store) (w : World) : World :=
  mkWorld (db_reachable w) s (<[c := mkConnection s true]> (conns w))
          (g_conn w) (trace w ++ [ev; EvCursorClose c; EvConnClose c]).

(** [n] calls of [get_db_connection()] in a row. *)
Fixpoint acquire_many (n : nat) (w : World)
  : list (outcome (option nat)) * World :=
  match n with
  | O => ([], w)
  | S n' =>
      let '(o, w1) := get_db_connection w in
      let '(os, w2) := acquire_many n' w1 in
      (o :: os, w2)
  end.

End session_notions.

Section rejected_inputs.
Context {U : UnicodeData}.

(** The inputs a view rejects by its own validation check. *)
Inductive validation_rejected : work view_rv → Prop :=
| rejected_create_post (m : gmap string json) (title username link : string) :
    m !! "title" = Some (JStr title) →
    m !! "username" = Some (JStr username) →
    m !! "link" = Some (JStr link) →
    py_strip title = "" ∨ py_strip username = "" ∨ py_strip link = "" →
    validation_rejected (create_post (JDict m))
| rejected_post_comment (post_id : Z) (m : gmap string json) :
    json_truthy (default JNull (m !! "text")) = false ∨
    json_truthy (default JNull (m !! "username")) = false →
    validation_rejected (post_comment post_id (JDict m))
| rejected_get_users (args : gmap string string) (e : exn) :
    page_parameters args = Raised e →
    validation_rejected (get_users args).

End rejected_inputs.

(** Those of the reddit service. *)
Inductive reddit_validation_rejected : work view_rv → Prop :=
| reddit_rejected_create_post (m : gmap string json) (title username link : string) :
    m !! "title" = Some (JStr title) →
    m !! "username" = Some (JStr username) →
    m !! "link" = Some (JStr link) →
    py_strip title = "" ∨ py_strip username = "" ∨ py_strip link = "" →
    reddit_validation_rejected (create_post (JDict m))
| reddit_rejected_post_comment (post_id : Z) (m : gmap string json) :
    json_truthy (default JNull (m !! "text")) = false ∨
    json_truthy (default JNull (m !! "username")) = false →
    reddit_validation_rejected (post_comment post_id (JDict m)).

(** What Python's documentation calls an integer literal in base 10, on
    the characters [int()] parses: a run of digits in which single
    underscores may stand between digits (with its value and its number
    of digits), with an optional sign before it and white space around
    it, of at most [max_str_digits] digits. *)
Inductive digit_run : list N → Z → nat → Prop :=
| run_first (c : N) (d : Z) :
    digit_of c = Some d → digit_run [c] d 1
| run_digit (l : list N) (v : Z) (k : nat) (c : N) (d : Z) :
    digit_run l v k → digit_of c = Some d →
    digit_run (l ++ [c]) (10 * v + d) (S k)
| run_underscore (l : list N) (v : Z) (k : nat) (c : N) (d : Z) :
    digit_run l v k → digit_of c = Some d →
    digit_run (l ++ [underscore; c]) (10 * v + d) (S k).

Definition int_literal (l : list N) (n : Z) : Prop :=
  ∃ lead sign body trail v k,
    l = lead ++ sign ++ body ++ trail ∧
    Forall (λ c, is_c_space c = true) lead ∧
    Forall (λ c, is_c_space c = true) trail ∧
    digit_run body v k ∧ (k ≤ max_str_digits)%nat ∧
    (((sign = [] ∨ sign = [plus_sign]) ∧ n = v) ∨
     (sign = [minus_sign] ∧ n = - v)).

Section raw_parameters.
Context {U : UnicodeData}.

(** The [str] [s] reads as the integer [n]. *)
Definition py_int_literal (s : string) (n : Z) : Prop :=
  int_literal (int_codes s) n.

(** The integer a raw query parameter stands for: the default when the
    parameter is absent, the integer its text reads as otherwise. *)
Definition reads_as (raw : option string) (dflt : Z) (n : Z) : Prop :=
  match raw with
  | None => n = dflt
  | Some s => py_int_literal s n
  end.

End raw_parameters.

Section request_notions.
Context {E : Engine}.

(** The world once a new connection has been opened and cached in [g]. *)
Definition connected (w : World) : World :=
  mkWorld (db_reachable w) (db_committed w)
          (conns w ++ [mkConnection (db_committed w) false])
          (Some (length (conns w)))
          (trace w ++ [EvConnect (length (conns w))]).

(** The driver calls made between world [w] and the later world [w']. *)
Definition request_events (w w' : World) : list event :=
  drop (length (trace w)) (trace w').

(** What a unit of work cannot change. *)
Record work_preserves (cur : Cursor) (w : World) (cur' : Cursor) (w' : World)
  : Prop := {
  wp_conn : cur_conn cur' = cur_conn cur;
  wp_reachable : db_reachable w' = db_reachable w;
  wp_committed : db_committed w' = db_committed w;
  wp_g : g_conn w' = g_conn w;
  wp_length : length (conns w') = length (conns w);
  wp_open : conn_open (cur_conn cur) w = true → conn_open (cur_conn cur) w' = true;
  wp_trace : ∃ evs, trace w' = trace w ++ evs ∧ Forall (is_execute_of (cur_conn cur)) evs
}.

End request_notions.

(** A unit of work that writes and then fails: an [INSERT] followed by
    the misspelt count statement of [get_users]. *)
Definition write_then_fail : work view_rv :=
  execute sql_insert_post (ArgsTuple [JStr "t"; JStr "l"; JStr "u"]);;
  execute sql_count_users ArgsNone;;
  Ret (Rv JNull).


Definition page_args (size number : string) : gmap string string :=
  {[ "pageSize" := size; "pageNumber" := number ]}.

(** Sample texts beyond ASCII: NO-BREAK SPACE, the ARABIC-INDIC digits
    FIVE and THREE, a lone surrogate (U+D800). *)
Definition no_break_space : string :=
  string_of_bytes [ascii_of_N 194; ascii_of_N 160].

Definition arabic_indic_53 : string :=
  string_of_bytes [ascii_of_N 217; ascii_of_N 165; ascii_of_N 217; ascii_of_N 163].

Definition lone_surrogate : string :=
  string_of_bytes [ascii_of_N 237; ascii_of_N 160; ascii_of_N 128].

Definition no_break_space_title_post : gmap string json :=
  {[ "title" := JStr (no_break_space +:+ " "); "username" := JStr "u";
     "link" := JStr "l" ]}.

Definition invalid_pagination : pagination :=
  InvalidPagination (RvStatus (error_body "Invalid pagination parameters") 400).

(* ===================================================================== *)
(** ** The comment listing of the reddit service                         *)
(* ===================================================================== *)

Definition sql_select_comments : string :=
  "SELECT * from comments WHERE post_id = %s".

(** The dict built from one fetched comment row, [row[0] .. row[4]]. *)
Definition comment_row_to_json (r : row) : outcome json :=
  v0 ← row_get r 0; v1 ← row_get r 1; v2 ← row_get r 2;
  v3 ← row_get r 3; v4 ← row_get r 4;
  mret (JDict (list_to_map
    [("id", json_of_sql v0); ("post_id", json_of_sql v1);
     ("upvotes", json_of_sql v2); ("text", json_of_sql v3);
     ("username", json_of_sql v4)])).

(** The loop [for row in rows: ... comments_data.append(comment)]. *)
Fixpoint comments_data (rows : list row) : outcome (list json) :=
  match rows with
  | [] => Normal []
  | r :: rest =>
      match comment_row_to_json r with
      | Raised e => Raised e
      | Normal comment =>
          match comments_data rest with
          | Raised e => Raised e
          | Normal data => Normal (comment :: data)
          end
      end
  end.

Definition get_comments_for_post (post_id : Z) : work view_rv :=
  execute sql_select_comments (ArgsTuple [JInt post_id]);;
  rows ← fetchall;
  match rows with
  | [] => Ret (RvStatus (error_body
            ("No comments with post_id = " +:+ pretty post_id)) 404)
  | _ =>
      data ← lift (comments_data rows);
      Ret (RvStatus (JList data) 200)
  end.

(* ===================================================================== *)
(** ** Further notions                                                   *)
(* ===================================================================== *)

(** The rows the loop turns into a comment: those whose child id is true
    in Python's sense. *)
Definition kept_rows (rows : list JoinRow) : list JoinRow :=
  filter (λ r, truthy (row5 r) = true) rows.

(** The number of comments in a list of parent objects. *)
Definition total_comments (posts : list PostObj) : nat :=
  sum_list ((λ p, length (p_comments p)) <$> posts).

(** The first of the fields [title], [username], [link] of a body, in
    the order [create_post] reads them, whose value is not a [str]; an
    absent field reads as [None]. *)
Definition first_non_string_field (m : gmap string json) : option json :=
  match default JNull (m !! "title") with
  | JStr _ =>
      match default JNull (m !! "username") with
      | JStr _ =>
          match default JNull (m !! "link") with
          | JStr _ => None
          | v => Some v
          end
      | v => Some v
      end
  | v => Some v
  end.

(** Is the request body a JSON object? *)
Definition is_dict (v : json) : bool :=
  match v with JDict _ => true | _ => false end.

Section further_session_notions.
Context {E : Engine}.

(** The world in which a view starts to run in a fresh request context:
    the connection is open and cached, the cursor is created. *)
Definition session_start (w : World) : World :=
  log (EvCursor (length (conns w))) (connected w).

(** No connection object is left open. *)
Definition all_closed (w : World) : Prop :=
  Forall (λ co, conn_closed co = true) (conns w).

(** The world after connection [c] has run a statement that left its
    transaction in state [s]. *)
Definition after_statement (c : nat) (sql : string) (s : Store) (w : World)
  : World :=
  set_conn c (mkConnection s false) (log (EvExecute c sql) w).

End further_session_notions.

(** Sample join rows of a second post. *)
Definition row_post_two : JoinRow :=
  mkJoinRow (SInt 2) (SInt 0) (SText "T2") (SText "l2") (SText "c")
            (SInt 11) (SInt 1) (SText "yo") (SText "amy").

(** What the decorated function answers for the outcome of its view. *)
Definition answer (o : outcome view_rv) : outcome view_rv :=
  match o with
  | Normal response => Normal response
  | Raised e => Normal (RvStatus (error_body (exn_msg e)) 500)
  end.

(** The driver call that ends the transaction for that outcome. *)
Definition ending {A : Type} (c : nat) (o : outcome A) : event :=
  match o with
  | Normal _ => EvCommit c
  | Raised _ => EvRollback c
  end.

(** An engine that answers every statement with the same rows and keeps
    no state; and sample requests. *)
Definition fixed_engine (rows : list row) : Engine :=
  {| Store := unit; sql_execute := λ _ _ _, SqlOk () rows 1 |}.

Definition fixed_world (rows : list row) : @World (fixed_engine rows) :=
  @mkWorld (fixed_engine rows) true () [] None [].

Definition updated_comment_row : row :=
  [SInt 7; SInt 1; SText "new text"; SText "bob"; SInt 4].

Definition stored_comment_row : row :=
  [SInt 7; SInt 1; SInt 4; SText "hi"; SText "bob"].

Definition post_without_title : gmap string json :=
  {[ "username" := JStr "u"; "link" := JStr "l" ]}.

Definition padded_post : gmap string json :=
  {[ "title" := JStr " a "; "username" := JStr "u"; "link" := JStr "l" ]}.

Definition sample_comment : gmap string json :=
  {[ "text" := JStr "hi"; "username" := JStr "bob" ]}.

(* ===================================================================== *)
(** * Properties                                                         *)
(* ===================================================================== *)

(** ** The aggregation *)

Section aggregation_facts.
Implicit Types (rows : list JoinRow) (r : JoinRow) (k : sqlval) (d : posts_dict).

Lemma first_seen_elem (ids : list sqlval) k : k ∈ first_seen ids ↔ k ∈ ids.
Proof.
  induction ids as [|k0 ids IH]; simpl; [done|].
  rewrite !elem_of_cons, list_elem_of_filter, IH.
  destruct (decide (k = k0)); intuition.
Qed.

Lemma first_seen_NoDup (ids : list sqlval) : NoDup (first_seen ids).
Proof.
  induction ids as [|k0 ids IH]; simpl; [constructor|].
  constructor.
  - rewrite list_elem_of_filter. intros [Hne _]. by apply Hne.
  - by apply NoDup_filter.
Qed.

Lemma first_rows_keys rows : row0 <$> first_rows rows = first_seen (row0 <$> rows).
Proof.
  induction rows as [|r rows IH]; [done|].
  cbn [first_rows]. rewrite !fmap_cons. cbn [first_seen].
  f_equal. rewrite <- IH.
  generalize (first_rows rows). intros l.
  induction l as [|x l IHl]; [done|].
  rewrite fmap_cons, !filter_cons.
  destruct (decide (row0 x ≠ row0 r)); by rewrite ?fmap_cons, IHl.
Qed.

Lemma first_rows_elem_key rows k : k ∈ row0 <$> first_rows rows ↔ k ∈ row0 <$> rows.
Proof. rewrite first_rows_keys. apply first_seen_elem. Qed.

Lemma first_rows_snoc rows r :
  first_rows (rows ++ [r]) =
  if decide (row0 r ∈ row0 <$> rows) then first_rows rows else first_rows rows ++ [r].
Proof.
  induction rows as [|r0 rows IH]; [done|].
  rewrite fmap_cons. cbn [app first_rows]. rewrite IH.
  destruct (decide (row0 r ∈ row0 <$> rows)) as [Hin|Hin].
  - rewrite decide_True; [done|]. rewrite elem_of_cons. by right.
  - rewrite filter_app, filter_cons, filter_nil.
    destruct (decide (row0 r ≠ row0 r0)) as [Hne|Heq];
      destruct (decide (row0 r ∈ row0 r0 :: (row0 <$> rows))) as [Hin'|Hin'].
    + apply elem_of_cons in Hin' as [?|?]; done.
    + done.
    + by rewrite app_nil_r.
    + exfalso. apply Hin', elem_of_cons. left.
      destruct (decide (row0 r = row0 r0)); [done|contradiction].
Qed.

Lemma child_rows_snoc k rows r :
  child_rows k (rows ++ [r]) =
  child_rows k rows ++
    (if decide (row0 r = k) then if truthy (row5 r) then [r] else [] else []).
Proof.
  unfold child_rows. rewrite filter_app, filter_cons, filter_nil.
  f_equal. destruct (decide (row0 r = k)) as [->|Hne].
  - destruct (truthy (row5 r)).
    + by rewrite decide_True.
    + rewrite decide_False; [done|]. intros [_ ?]; done.
  - rewrite decide_False; [done|]. intros [? _]; done.
Qed.

Lemma child_rows_absent k rows : k ∉ row0 <$> rows → child_rows k rows = [].
Proof.
  intros Hk. unfold child_rows. induction rows as [|r rows IH]; [done|].
  rewrite fmap_cons, not_elem_of_cons in Hk. destruct Hk as [Hne Hk].
  rewrite filter_cons, decide_False; [by apply IH|]. intros [? _]; done.
Qed.

Lemma post_for_snoc rows r r0 :
  post_for (rows ++ [r]) r0 =
  if decide (row0 r = row0 r0)
  then if truthy (row5 r) then append_comment (comment_of r) (post_for rows r0)
       else post_for rows r0
  else post_for rows r0.
Proof.
  unfold post_for, append_comment. simpl. rewrite child_rows_snoc.
  destruct (decide (row0 r = row0 r0)); [destruct (truthy (row5 r))|];
    by rewrite ?fmap_app, ?app_nil_r.
Qed.

Lemma dict_append_comment_spec rows r (l : list JoinRow) :
  truthy (row5 r) = true →
  dict_append_comment (row0 r) (comment_of r)
    ((λ r0, (row0 r0, post_for rows r0)) <$> l) =
  (λ r0, (row0 r0, post_for (rows ++ [r]) r0)) <$> l.
Proof.
  intros Ht. unfold dict_append_comment. rewrite <- list_fmap_compose.
  apply list_fmap_ext. intros i r0 _. simpl.
  rewrite post_for_snoc, Ht.
  destruct (decide (row0 r0 = row0 r)) as [Heq|Hne].
  - by rewrite decide_True.
  - by rewrite decide_False.
Qed.

Lemma dict_no_comment_spec rows r (l : list JoinRow) :
  truthy (row5 r) = false →
  (λ r0, (row0 r0, post_for rows r0)) <$> l =
  (λ r0, (row0 r0, post_for (rows ++ [r]) r0)) <$> l.
Proof.
  intros Ht. apply list_fmap_ext. intros i r0 _. simpl.
  rewrite post_for_snoc, Ht. by destruct (decide _).
Qed.

Lemma new_post_spec rows r : row0 r ∉ row0 <$> rows → new_post r = post_for rows r.
Proof. intros Hk. unfold new_post, post_for. by rewrite child_rows_absent. Qed.

(** The dict after the loop has run over [rows]. *)
Lemma foldl_aggregate_step rows :
  foldl aggregate_step [] rows =
  (λ r, (row0 r, post_for rows r)) <$> first_rows rows.
Proof.
  induction rows as [|r rows IH] using rev_ind; [done|].
  rewrite foldl_app. simpl. rewrite IH. unfold aggregate_step.
  set (d := (λ r0, (row0 r0, post_for rows r0)) <$> first_rows rows).
  assert (Hkeys : d.*1 = row0 <$> first_rows rows).
  { unfold d. rewrite <- list_fmap_compose. done. }
  unfold dict_setitem, dict_contains. rewrite Hkeys, first_rows_snoc.
  destruct (decide (row0 r ∈ row0 <$> rows)) as [Hin|Hin].
  - rewrite bool_decide_eq_true_2 by (by apply first_rows_elem_key).
    destruct (truthy (row5 r)) eqn:Ht.
    + by apply dict_append_comment_spec.
    + by apply dict_no_comment_spec.
  - rewrite bool_decide_eq_false_2 by (by rewrite first_rows_elem_key).
    rewrite (new_post_spec rows r Hin).
    replace (d ++ [(row0 r, post_for rows r)])
      with ((λ r0, (row0 r0, post_for rows r0)) <$> (first_rows rows ++ [r]))
      by (by rewrite fmap_app).
    destruct (truthy (row5 r)) eqn:Ht.
    + by apply dict_append_comment_spec.
    + by apply dict_no_comment_spec.
Qed.

Lemma aggregate_spec rows : aggregate rows = post_for rows <$> first_rows rows.
Proof.
  unfold aggregate. rewrite foldl_aggregate_step, <- list_fmap_compose. done.
Qed.

End aggregation_facts.

Section later_row_facts.
Implicit Types (rows : list JoinRow) (r : JoinRow) (k : sqlval).

Lemma first_rows_head rows r :
  r ∈ first_rows rows → head (rows_of (row0 r) rows) = Some r.
Proof.
  unfold rows_of. induction rows as [|x rows IH]; cbn [first_rows].
  - by intros ?%elem_of_nil.
  - rewrite elem_of_cons, list_elem_of_filter, filter_cons.
    intros [->|[Hne Hin]].
    + by rewrite decide_True.
    + rewrite decide_False by (intros Heq; by apply Hne). by apply IH.
Qed.

Lemma first_rows_filter k rows :
  filter (λ r, row0 r ≠ k) (first_rows rows) =
  first_rows (filter (λ r, row0 r ≠ k) rows).
Proof.
  induction rows as [|x rows IH]; [done|].
  cbn [first_rows]. rewrite !filter_cons.
  destruct (decide (row0 x ≠ k)) as [Hne|Heq].
  - cbn [first_rows]. f_equal. rewrite <- IH, !list_filter_filter.
    apply list_filter_iff. intros r. tauto.
  - assert (row0 x = k) as <- by (destruct (decide (row0 x = k)); [done|contradiction]).
    rewrite <- IH, list_filter_filter. apply list_filter_iff. intros r. tauto.
Qed.

Lemma first_rows_later_row l1 r r' l2 :
  row0 r' = row0 r → row0 r ∈ row0 <$> l1 →
  first_rows (l1 ++ r' :: l2) = first_rows (l1 ++ r :: l2).
Proof.
  intros Hk. induction l1 as [|x l1 IH]; [by intros ?%elem_of_nil|].
  rewrite fmap_cons, elem_of_cons. intros Hin. cbn [app first_rows]. f_equal.
  destruct (decide (row0 r = row0 x)) as [Heq|Hne].
  - rewrite !first_rows_filter, !filter_app, !filter_cons.
    rewrite !decide_False; [done| |]; intros Hn; apply Hn; congruence.
  - rewrite IH; [done|]. by destruct Hin.
Qed.

Lemma child_rows_later_row k l1 r r' l2 :
  row0 r' = row0 r → comment_of r' = comment_of r →
  comment_of <$> child_rows k (l1 ++ r' :: l2) =
  comment_of <$> child_rows k (l1 ++ r :: l2).
Proof.
  intros Hk Hc. unfold child_rows. rewrite !filter_app, !filter_cons, !fmap_app.
  f_equal. assert (row5 r' = row5 r) as H5 by (by injection Hc).
  rewrite Hk, H5. destruct (decide _); [|done]. by rewrite !fmap_cons, Hc.
Qed.
End later_row_facts.

Section aggregation_theorems.
Implicit Types (rows : list JoinRow) (r : JoinRow) (k : sqlval).

Lemma aggregate_keys rows : p_id <$> aggregate rows = first_seen (row0 <$> rows).
Proof.
  rewrite aggregate_spec, <- list_fmap_compose. apply first_rows_keys.
Qed.

(** The number of parent objects is the number of distinct parent ids. *)
Lemma aggregate_parent_count rows :
  length (aggregate rows) = length (remove_dups (row0 <$> rows)).
Proof.
  rewrite <- (length_fmap p_id), aggregate_keys.
  apply Permutation_length, NoDup_Permutation.
  - apply first_seen_NoDup.
  - apply NoDup_remove_dups.
  - intros k. by rewrite first_seen_elem, elem_of_remove_dups.
Qed.

(** A parent has one child per row of its id whose child id is true in
    Python's sense. *)
Lemma aggregate_child_count rows :
  Forall (λ p, length (p_comments p) = length (child_rows (p_id p) rows))
         (aggregate rows).
Proof.
  rewrite aggregate_spec, Forall_fmap. apply Forall_forall. intros r _.
  simpl. by rewrite length_fmap.
Qed.

(** When no child id is [0] or [''], these are the rows with a non-null
    child id. *)
Lemma child_rows_non_null k rows :
  Forall (λ r, is_null (row5 r) = false → truthy (row5 r) = true) rows →
  child_rows k rows = non_null_child_rows k rows.
Proof.
  intros Hrows. unfold child_rows, non_null_child_rows.
  induction Hrows as [|r rows Hr _ IH]; [done|].
  rewrite !filter_cons, IH.
  destruct (decide (row0 r = k ∧ truthy (row5 r) = true)) as [[Hk Ht]|Hn];
    destruct (decide (row0 r = k ∧ is_null (row5 r) = false)) as [[Hk' Hnn]|Hn'];
    try done.
  - exfalso. apply Hn'. split; [done|]. by destruct (row5 r).
  - exfalso. apply Hn. split; [done|]. by apply Hr.
Qed.

Lemma aggregate_child_count_non_null rows :
  Forall (λ r, is_null (row5 r) = false → truthy (row5 r) = true) rows →
  length (aggregate rows) = length (remove_dups (row0 <$> rows)) ∧
  Forall (λ p, length (p_comments p) = length (non_null_child_rows (p_id p) rows))
         (aggregate rows).
Proof.
  intros Hrows. split; [apply aggregate_parent_count|].
  eapply Forall_impl; [apply aggregate_child_count|].
  intros p Hp. simpl in Hp. by rewrite <- child_rows_non_null.
Qed.

(** C1: on the single join row [(1, 3, 'T1', 'http://t1', 'a', 0, 2, 'hi',
    'bob')] there is one row of parent 1 with a non-null child id, yet
    the aggregation returns that parent with an empty child list: the
    test [if row[5]:] treats the comment id 0 as absent. *)
Theorem aggregate_drops_comment_with_id_zero :
  length (non_null_child_rows (SInt 1) [row_comment_zero]) = 1%nat ∧
  aggregate [row_comment_zero] =
    [mkPostObj (SInt 1) (SInt 3) (SText "T1") (SText "http://t1") (SText "a") []].
Proof. split; reflexivity. Qed.

(** C7: the parents come out in the order in which their ids first
    appear in the input, and the children of a parent are the comments
    of that parent's rows (those whose child id is kept) in input order;
    nothing is sorted. *)
Theorem aggregate_preserves_input_order rows :
  p_id <$> aggregate rows = first_seen (row0 <$> rows) ∧
  Forall (λ p, p_comments p = comment_of <$> child_rows (p_id p) rows)
         (aggregate rows).
Proof.
  split; [apply aggregate_keys|].
  rewrite aggregate_spec, Forall_fmap. by apply Forall_forall.
Qed.

(** C9: every parent id of the input has exactly one parent in the
    output, and the scalar fields of that parent are those of the first
    row bearing its id; no parent of the output has other scalar fields;
    and replacing the parent scalar fields of any later row of that id
    leaves the output unchanged. *)
Theorem aggregate_scalars_from_first_row rows :
  NoDup (p_id <$> aggregate rows) ∧
  (∀ k, k ∈ row0 <$> rows →
     ∃ p r, p ∈ aggregate rows ∧ p_id p = k ∧
            head (rows_of k rows) = Some r ∧ post_scalars p = row_scalars r) ∧
  Forall (λ p, ∃ r, head (rows_of (p_id p) rows) = Some r ∧
                    post_scalars p = row_scalars r)
         (aggregate rows) ∧
  ∀ l1 r l2 s, rows = l1 ++ r :: l2 → row0 r ∈ row0 <$> l1 →
    aggregate (l1 ++ with_scalars s r :: l2) = aggregate rows.
Proof.
  split; [rewrite aggregate_keys; apply first_seen_NoDup|]. split; [|split].
  - intros k Hk. apply first_rows_elem_key in Hk.
    apply list_elem_of_fmap in Hk as (r & -> & Hr).
    exists (post_for rows r), r. split; [|split; [done|split; [|done]]].
    + rewrite aggregate_spec. by apply list_elem_of_fmap_2.
    + by apply first_rows_head.
  - rewrite aggregate_spec, Forall_fmap. apply Forall_forall. intros r Hr.
    exists r. split; [|done]. by apply first_rows_head.
  - intros l1 r l2 [[[u t] l] n] -> Hin.
    rewrite !aggregate_spec.
    rewrite (first_rows_later_row l1 r _ l2) by done.
    apply list_fmap_ext. intros i r0 _. unfold post_for. f_equal.
    by apply child_rows_later_row.
Qed.

Lemma aggregate_scalars_from_first_row_witness :
  aggregate [row_post_one;
             with_scalars (SInt 3, SText "T1", SText "l1", SText "a") row_post_one_later] =
  aggregate [row_post_one; row_post_one_later].
Proof.
  apply (proj2 (proj2 (proj2
           (aggregate_scalars_from_first_row [row_post_one; row_post_one_later])))
           [row_post_one] row_post_one_later []).
  - reflexivity.
  - apply list_elem_of_here.
Defined.

End aggregation_theorems.

(** ** The driver and the session manager *)

Section session_facts.
Context {E : Engine}.
Implicit Types (w : World) (cur : Cursor) (c : nat).

Lemma work_preserves_refl cur cur' w :
  cur_conn cur' = cur_conn cur → work_preserves cur w cur' w.
Proof.
  intros Hc. split; try done.
  exists []. by rewrite app_nil_r.
Qed.

Lemma work_preserves_trans cur1 w1 cur2 w2 cur3 w3 :
  work_preserves cur1 w1 cur2 w2 → work_preserves cur2 w2 cur3 w3 →
  work_preserves cur1 w1 cur3 w3.
Proof.
  intros [Hc1 Hr1 Hd1 Hg1 Hl1 Ho1 (evs1 & Ht1 & He1)]
         [Hc2 Hr2 Hd2 Hg2 Hl2 Ho2 (evs2 & Ht2 & He2)].
  rewrite Hc1 in *. split; try congruence.
  - auto.
  - exists (evs1 ++ evs2). split.
    + by rewrite Ht2, Ht1, app_assoc.
    + by apply Forall_app.
Qed.

Lemma conn_open_set_conn c (s : Store) w :
  (c < length (conns w))%nat →
  conn_open c (set_conn c (mkConnection s false) w) = true.
Proof.
  intros Hlt. unfold conn_open, set_conn. simpl.
  by rewrite list_lookup_insert_eq.
Qed.

Lemma cursor_execute_preserves sql args cur w o cur' w' :
  cursor_execute sql args cur w = (o, cur', w') → work_preserves cur w cur' w'.
Proof.
  unfold cursor_execute. intros Hex.
  destruct (cur_closed cur); [injection Hex as <- <- <-; by apply work_preserves_refl|].
  destruct (conns w !! cur_conn cur) as [co|] eqn:Hco;
    [|injection Hex as <- <- <-; by apply work_preserves_refl].
  destruct (conn_closed co); [injection Hex as <- <- <-; by apply work_preserves_refl|].
  destruct (bind_args sql args) as [params|e];
    [|injection Hex as <- <- <-; by apply work_preserves_refl].
  destruct (sql_execute sql params (conn_store co)) as [s rows n|msg];
    injection Hex as <- <- <-.
  - split; simpl; try done.
    + by rewrite length_insert.
    + intros _. apply (conn_open_set_conn _ _ (log _ w)). simpl.
      by eapply lookup_lt_Some.
    + exists [EvExecute (cur_conn cur) sql]. split; [done|].
      apply Forall_singleton. by exists sql.
  - split; simpl; try done.
    exists [EvExecute (cur_conn cur) sql]. split; [done|].
    apply Forall_singleton. by exists sql.
Qed.

Lemma run_work_preserves {A} (m : work A) cur w o cur' w' :
  run_work m cur w = (o, cur', w') → work_preserves cur w cur' w'.
Proof.
  revert cur w. induction m as [a|e|sql args k IH|k IH|k IH|k IH]; intros cur w; simpl.
  - intros [= <- <- <-]. by apply work_preserves_refl.
  - intros [= <- <- <-]. by apply work_preserves_refl.
  - destruct (cursor_execute sql args cur w) as [[[[]|e] cur1] w1] eqn:Hex.
    + intros Hrun. eapply work_preserves_trans.
      * by eapply cursor_execute_preserves.
      * by apply IH.
    + intros [= <- <- <-]. by eapply cursor_execute_preserves.
  - destruct (cur_closed cur).
    + intros [= <- <- <-]. by apply work_preserves_refl.
    + intros Hrun. apply IH in Hrun. destruct Hrun. split; done.
  - destruct (cur_closed cur).
    + intros [= <- <- <-]. by apply work_preserves_refl.
    + intros Hrun. apply IH in Hrun. destruct Hrun. split; done.
  - by apply IH.
Qed.

Lemma conn_open_lookup c w :
  conn_open c w = true ↔ ∃ co, conns w !! c = Some co ∧ conn_closed co = false.
Proof.
  unfold conn_open. destruct (conns w !! c) as [co|].
  - destruct (conn_closed co) eqn:Hcl; simpl; split.
    + done.
    + intros (co' & [= <-] & Hco'). congruence.
    + intros _. by exists co.
    + done.
  - split; [done|]. by intros (co & ? & _).
Qed.

(** The decorated function, once the connection is there: the work runs
    on a fresh cursor; a normal return is committed, an exception is
    rolled back and turned into the 500 response; then cursor and
    connection are closed. *)
Lemma with_db_connection_acquired (f : work view_rv) w c w1 o cur' w3 :
  get_db_connection w = (Normal (Some c), w1) →
  conn_open c w1 = true →
  run_work f (fresh_cursor c) (log (EvCursor c) w1) = (o, cur', w3) →
  ∃ co, conns w3 !! c = Some co ∧ conn_closed co = false ∧
    with_db_connection f w =
      match o with
      | Normal response =>
          (Normal response, finished c (EvCommit c) (conn_store co) w3)
      | Raised e =>
          (Normal (RvStatus (error_body (exn_msg e)) 500),
           finished c (EvRollback c) (db_committed w3) w3)
      end.
Proof.
  intros Hget Hopen Hrun.
  pose proof (run_work_preserves _ _ _ _ _ _ Hrun) as Hp.
  destruct Hp as [Hc _ _ _ _ Ho _]. simpl in Hc, Ho.
  specialize (Ho Hopen). apply conn_open_lookup in Ho as (co & Hco & Hcl).
  exists co. split; [done|]. split; [done|].
  unfold with_db_connection. rewrite Hget. unfold conn_cursor. rewrite Hopen.
  fold (fresh_cursor c). rewrite Hrun.
  assert (Hlt : (c < length (conns w3))%nat) by (by eapply lookup_lt_Some).
  destruct o as [response|e].
  - unfold conn_commit. rewrite Hco, Hcl. simpl.
    unfold conn_close. simpl. rewrite Hco, Hcl, Hc. unfold finished, set_conn, log. simpl.
    by rewrite <- !app_assoc.
  - unfold conn_rollback. rewrite Hco, Hcl. simpl.
    unfold conn_close. simpl. rewrite list_lookup_insert_eq by done. simpl.
    rewrite Hc. unfold finished, set_conn, log. simpl.
    by rewrite list_insert_insert_eq, <- !app_assoc.
Qed.

Lemma get_db_connection_fresh w :
  g_conn w = None → db_reachable w = true →
  get_db_connection w = (Normal (Some (length (conns w))), connected w) ∧
  conn_open (length (conns w)) (connected w) = true.
Proof.
  intros Hg Hr. unfold get_db_connection, psycopg2_connect, connected, set_g, log.
  rewrite Hg, Hr. split; [done|]. unfold conn_open. simpl.
  by rewrite lookup_app_r, Nat.sub_diag.
Qed.

Lemma get_db_connection_cached w c :
  g_conn w = Some c → get_db_connection w = (Normal (Some c), w).
Proof. intros Hg. unfold get_db_connection. by rewrite Hg. Qed.

Lemma get_db_connection_unreachable w :
  g_conn w = None → db_reachable w = false →
  get_db_connection w = (Normal None, w).
Proof.
  intros Hg Hr. unfold get_db_connection, psycopg2_connect. by rewrite Hg, Hr.
Qed.

Lemma get_db_connection_committed w o w1 :
  get_db_connection w = (o, w1) → db_committed w1 = db_committed w.
Proof.
  unfold get_db_connection, psycopg2_connect.
  destruct (g_conn w); [by intros [= <- <-]|].
  destruct (db_reachable w); [by intros [= <- <-]|].
  simpl. by intros [= <- <-].
Qed.

Lemma acquire_many_cached n w c :
  g_conn w = Some c →
  acquire_many n w = (replicate n (Normal (Some c)), w).
Proof.
  intros Hg. induction n as [|n IH]; [done|].
  simpl. by rewrite (get_db_connection_cached w c Hg), IH.
Qed.

(** C2: once the session is acquired, a unit of work that raises is
    rolled back (the committed state is what it was before the call) and
    answered by the 500 response carrying the exception's message; a
    unit of work that returns is committed (the committed state becomes
    what its transaction saw) and its result is returned; either way the
    cursor and the connection are closed afterwards. *)
Theorem with_db_connection_commits_or_rolls_back
    (f : work view_rv) w c w1 o cur' w3 :
  get_db_connection w = (Normal (Some c), w1) →
  conn_open c w1 = true →
  run_work f (fresh_cursor c) (log (EvCursor c) w1) = (o, cur', w3) →
  let result := (with_db_connection f w).1 in
  let w' := (with_db_connection f w).2 in
  conn_open c w' = false ∧
  match o with
  | Raised e =>
      result = Normal (RvStatus (error_body (exn_msg e)) 500) ∧
      db_committed w' = db_committed w ∧
      trace w' = trace w3 ++ [EvRollback c; EvCursorClose c; EvConnClose c]
  | Normal response =>
      result = Normal response ∧
      Some (db_committed w') = transaction_state c w3 ∧
      trace w' = trace w3 ++ [EvCommit c; EvCursorClose c; EvConnClose c]
  end.
Proof.
  intros Hget Hopen Hrun.
  destruct (with_db_connection_acquired f w c w1 o cur' w3 Hget Hopen Hrun)
    as (co & Hco & Hcl & Hwith).
  pose proof (run_work_preserves _ _ _ _ _ _ Hrun) as [_ _ Hd _ _ _ _].
  simpl in Hd. rewrite (get_db_connection_committed _ _ _ Hget) in Hd.
  assert (Hlt : (c < length (conns w3))%nat) by (by eapply lookup_lt_Some).
  rewrite Hwith. destruct o as [response|e]; simpl.
  - split; [|split; [done|split; [|done]]].
    + unfold conn_open, finished. simpl. by rewrite list_lookup_insert_eq.
    + unfold transaction_state. by rewrite Hco.
  - split; [|done].
    unfold conn_open, finished. simpl. by rewrite list_lookup_insert_eq.
Qed.


Lemma close_calls_app c (evs1 evs2 : list event) :
  close_calls c (evs1 ++ evs2) = (close_calls c evs1 + close_calls c evs2)%nat.
Proof. unfold close_calls. by rewrite filter_app, length_app. Qed.

Lemma close_calls_executes c c' (evs : list event) :
  Forall (is_execute_of c') evs → close_calls c evs = 0%nat.
Proof.
  unfold close_calls. induction 1 as [|ev evs [sql ->] _ IH]; [done|].
  by rewrite filter_cons, decide_False.
Qed.

(** The trace of one run of the decorated function in a fresh request
    context with the store reachable. *)
Lemma with_db_connection_fresh (f : work view_rv) w :
  g_conn w = None → db_reachable w = true →
  ∃ evs fin s w3,
    Forall (is_execute_of (length (conns w))) evs ∧
    (fin = EvCommit (length (conns w)) ∨ fin = EvRollback (length (conns w))) ∧
    (with_db_connection f w).2 = finished (length (conns w)) fin s w3 ∧
    trace w3 = trace w ++ [EvConnect (length (conns w)); EvCursor (length (conns w))] ++ evs ∧
    g_conn w3 = Some (length (conns w)) ∧
    (length (conns w) < length (conns w3))%nat.
Proof.
  intros Hg Hr. set (c := length (conns w)).
  destruct (get_db_connection_fresh w Hg Hr) as [Hget Hopen]. fold c in Hget, Hopen.
  destruct (run_work f (fresh_cursor c) (log (EvCursor c) (connected w)))
    as [[o cur'] w3] eqn:Hrun.
  destruct (with_db_connection_acquired f w c _ o cur' w3 Hget Hopen Hrun)
    as (co & Hco & Hcl & Hwith).
  pose proof (run_work_preserves _ _ _ _ _ _ Hrun)
    as [_ _ _ Hg3 _ _ (evs & Htr & Hevs)].
  simpl in Hg3, Htr, Hevs.
  assert (Htrace : trace w3 = trace w ++ [EvConnect c; EvCursor c] ++ evs).
  { rewrite Htr. fold c. by rewrite <- !app_assoc. }
  assert (Hlt : (c < length (conns w3))%nat) by (by eapply lookup_lt_Some).
  destruct o as [response|e].
  - exists evs, (EvCommit c), (conn_store co), w3. rewrite Hwith. naive_solver.
  - exists evs, (EvRollback c), (db_committed w3), w3. rewrite Hwith. naive_solver.
Qed.

(** C6: in a fresh request context of the reddit service with the store
    reachable, the decorated function calls [close] on the connection
    exactly once, after the commit or the rollback; the teardown hook
    then calls [close] on the same connection once more, so a request
    makes two [close] calls; the connection ends closed. *)
Theorem close_called_once_by_decorator_twice_per_reddit_request
    (f : work view_rv) w :
  g_conn w = None → db_reachable w = true →
  let c := length (conns w) in
  ∃ evs fin,
    Forall (is_execute_of c) evs ∧ (fin = EvCommit c ∨ fin = EvRollback c) ∧
    request_events w (with_db_connection f w).2 =
      [EvConnect c; EvCursor c] ++ evs ++ [fin; EvCursorClose c; EvConnClose c] ∧
    request_events w (reddit_request f w).2 =
      [EvConnect c; EvCursor c] ++ evs ++
      [fin; EvCursorClose c; EvConnClose c; EvConnClose c] ∧
    close_calls c (request_events w (with_db_connection f w).2) = 1%nat ∧
    close_calls c (request_events w (reddit_request f w).2) = 2%nat ∧
    conn_open c (reddit_request f w).2 = false.
Proof.
  intros Hg Hr c.
  destruct (with_db_connection_fresh f w Hg Hr)
    as (evs & fin & s & w3 & Hevs & Hfin & Hwith & Htr & Hg3 & Hlt).
  fold c in Hevs, Hfin, Hwith, Htr, Hg3, Hlt.
  exists evs, fin. split; [done|]. split; [done|].
  assert (Hv : request_events w (with_db_connection f w).2 =
    [EvConnect c; EvCursor c] ++ evs ++ [fin; EvCursorClose c; EvConnClose c]).
  { unfold request_events. rewrite Hwith. simpl. rewrite Htr.
    by rewrite <- !app_assoc, drop_app_length. }
  assert (Hreq : (reddit_request f w).2 =
    mkWorld (db_reachable w3) s (<[c := mkConnection s true]> (conns w3)) None
            (trace w3 ++ [fin; EvCursorClose c; EvConnClose c; EvConnClose c])).
  { unfold reddit_request. destruct (with_db_connection f w) as [result w'].
    simpl in Hwith. subst w'. simpl.
    unfold close_db_connection, finished. simpl. rewrite Hg3.
    unfold conn_close, set_g, log. simpl.
    rewrite list_lookup_insert_eq by done. simpl.
    by rewrite <- !app_assoc. }
  assert (Hrd : request_events w (reddit_request f w).2 =
    [EvConnect c; EvCursor c] ++ evs ++
    [fin; EvCursorClose c; EvConnClose c; EvConnClose c]).
  { unfold request_events. rewrite Hreq. simpl. rewrite Htr.
    by rewrite <- !app_assoc, drop_app_length. }
  split; [done|]. split; [done|].
  assert (Hfin' : close_calls c [fin] = 0%nat).
  { unfold close_calls. rewrite filter_cons, decide_False; [done|].
    destruct Hfin as [-> | ->]; done. }
  split; [|split].
  - rewrite Hv, !close_calls_app, (close_calls_executes _ _ _ Hevs).
    change [fin; EvCursorClose c; EvConnClose c]
      with ([fin] ++ [EvCursorClose c; EvConnClose c]).
    rewrite close_calls_app, Hfin'. unfold close_calls.
    rewrite !filter_cons, decide_False, decide_False, decide_False, decide_True by done.
    done.
  - rewrite Hrd, !close_calls_app, (close_calls_executes _ _ _ Hevs).
    change [fin; EvCursorClose c; EvConnClose c; EvConnClose c]
      with ([fin] ++ [EvCursorClose c; EvConnClose c; EvConnClose c]).
    rewrite close_calls_app, Hfin'. unfold close_calls.
    rewrite !filter_cons, decide_False, decide_False, decide_False,
      decide_True, decide_True by done.
    done.
  - rewrite Hreq. unfold conn_open. simpl. by rewrite list_lookup_insert_eq.
Qed.

(** C8: in a request context without a connection, the first
    [get_db_connection()] opens one new connection and caches it, and any
    number of further calls return that same connection and open
    nothing; when the store cannot be reached the call returns [None]
    and does not raise. *)
Theorem get_db_connection_idempotent w (n : nat) :
  g_conn w = None →
  (db_reachable w = true →
     get_db_connection w = (Normal (Some (length (conns w))), connected w) ∧
     length (conns (connected w)) = S (length (conns w)) ∧
     acquire_many n (connected w) =
       (replicate n (Normal (Some (length (conns w)))), connected w)) ∧
  (db_reachable w = false → get_db_connection w = (Normal None, w)).
Proof.
  intros Hg. split.
  - intros Hr. split; [by apply get_db_connection_fresh|]. split.
    + unfold connected. simpl. rewrite length_app. simpl. lia.
    + by apply acquire_many_cached.
  - intros Hr. by apply get_db_connection_unreachable.
Qed.

End session_facts.

Lemma with_db_connection_commits_or_rolls_back_witness :
  (@with_db_connection demo_engine write_then_fail (demo_world true [1; 2])).1 =
    Normal (RvStatus (error_body "syntax error") 500) ∧
  db_committed (@with_db_connection demo_engine write_then_fail
                  (demo_world true [1; 2])).2 = [1; 2].
Proof.
  pose proof (@with_db_connection_commits_or_rolls_back demo_engine
    write_then_fail (demo_world true [1; 2]) 0%nat _ _ _ _
    eq_refl eq_refl eq_refl) as H.
  simpl in H. destruct H as (_ & Hres & Hdb & _). split; assumption.
Defined.

Lemma close_called_once_by_decorator_twice_per_reddit_request_witness :
  ∃ evs fin,
    request_events (demo_world true [1; 2])
      (@reddit_request demo_engine get_all_post (demo_world true [1; 2])).2 =
    [EvConnect 0; EvCursor 0] ++ evs ++
    [fin; EvCursorClose 0; EvConnClose 0; EvConnClose 0].
Proof.
  destruct (@close_called_once_by_decorator_twice_per_reddit_request demo_engine
              get_all_post (demo_world true [1; 2]) eq_refl eq_refl)
    as (evs & fin & _ & _ & _ & H & _).
  exists evs, fin. exact H.
Defined.

(** C6, as stated, fails: one request to the reddit service for
    [get_all_post] opens one connection and calls [close] on it twice. *)
Lemma reddit_request_closes_twice :
  length (conns (@reddit_request demo_engine get_all_post
                   (demo_world true [1; 2])).2) = 1%nat ∧
  close_calls 0 (trace (@reddit_request demo_engine get_all_post
                          (demo_world true [1; 2])).2) = 2%nat ∧
  close_calls 0 (trace (@reddit_request demo_engine get_all_post
                          (demo_world true [1; 2])).2) ≠ 1%nat.
Proof. vm_compute. repeat split; discriminate. Qed.

Lemma get_db_connection_idempotent_witness :
  @acquire_many demo_engine 3 (connected (demo_world true [1; 2])) =
    (replicate 3 (Normal (Some 0%nat)), connected (demo_world true [1; 2])) ∧
  @get_db_connection demo_engine (demo_world false [1; 2]) =
    (Normal None, demo_world false [1; 2]).
Proof.
  destruct (@get_db_connection_idempotent demo_engine (demo_world true [1; 2]) 3 eq_refl)
    as [Hup _].
  destruct (@get_db_connection_idempotent demo_engine (demo_world false [1; 2]) 3 eq_refl)
    as [_ Hdown].
  split; [exact (proj2 (proj2 (Hup eq_refl)))|exact (Hdown eq_refl)].
Defined.

(** ** Reading integers *)

Section int_facts.
Implicit Types (l : list N) (c : N) (v : Z) (k : nat).

Lemma digit_of_range c d :
  digit_of c = Some d → (48 <= c)%N ∧ (c <= 57)%N ∧ d = Z.of_N c - 48.
Proof.
  unfold digit_of.
  destruct (N.leb_spec 48 c); destruct (N.leb_spec c 57); simpl; try done.
  by intros [= <-].
Qed.

Lemma digit_not_c_space c d : digit_of c = Some d → is_c_space c = false.
Proof.
  intros (H1 & H2 & _)%digit_of_range. unfold is_c_space.
  destruct (N.leb_spec 9 c); destruct (N.leb_spec c 13);
    destruct (N.eqb_spec c 32); simpl; try done; lia.
Qed.

Lemma digit_not_sign c d :
  digit_of c = Some d → (c =? plus_sign)%N = false ∧ (c =? minus_sign)%N = false.
Proof.
  intros (H1 & H2 & _)%digit_of_range. unfold plus_sign, minus_sign.
  split; apply N.eqb_neq; lia.
Qed.

(** The scanner follows a digit run. *)
Lemma run_parse l v k :
  digit_run l v k →
  ∀ rest, parse_digits (l ++ rest) 0 0 false = parse_digits rest v k true.
Proof.
  induction 1 as [c d Hd|l v k c d _ IH Hd|l v k c d _ IH Hd]; intros rest.
  - simpl. by rewrite Hd.
  - rewrite <- app_assoc, IH. simpl. by rewrite Hd.
  - rewrite <- app_assoc, IH. simpl. by rewrite Hd.
Qed.

(** What the scanner accepts after a digit run is a digit run. *)
Lemma parse_run_after l :
  ∀ pre v0 k0 v k, digit_run pre v0 k0 →
    (parse_digits l v0 k0 true = Some (v, k) → digit_run (pre ++ l) v k) ∧
    (parse_digits l v0 k0 false = Some (v, k) →
     digit_run (pre ++ underscore :: l) v k).
Proof.
  induction l as [|c l IH]; intros pre v0 k0 v k Hpre; simpl.
  - split; [|done]. intros [= <- <-]. by rewrite app_nil_r.
  - destruct (digit_of c) as [d|] eqn:Hd.
    + split; intros Hp.
      * replace (pre ++ c :: l) with ((pre ++ [c]) ++ l) by (by rewrite <- app_assoc).
        destruct (IH (pre ++ [c]) (10 * v0 + d) (S k0) v k) as [IH1 _];
          [by constructor|]. by apply IH1.
      * replace (pre ++ underscore :: c :: l) with ((pre ++ [underscore; c]) ++ l)
          by (by rewrite <- app_assoc).
        destruct (IH (pre ++ [underscore; c]) (10 * v0 + d) (S k0) v k) as [IH1 _];
          [by constructor|]. by apply IH1.
    + rewrite andb_false_r, andb_true_r. split; [|done].
      destruct (N.eqb_spec c underscore) as [->|]; [|done].
      intros Hp. destruct (IH pre v0 k0 v k Hpre) as [_ IH2]. by apply IH2.
Qed.

Lemma parse_run l v k :
  parse_digits l 0 0 false = Some (v, k) → digit_run l v k.
Proof.
  destruct l as [|c l]; [done|]. simpl.
  destruct (digit_of c) as [d|] eqn:Hd; [|by rewrite andb_false_r].
  intros Hp. change (c :: l) with ([c] ++ l).
  destruct (parse_run_after l [c] d 1 v k) as [H1 _]; [by constructor|].
  by apply H1.
Qed.

Lemma digit_run_first l v k :
  digit_run l v k → ∃ c l' d, l = c :: l' ∧ digit_of c = Some d.
Proof.
  induction 1 as [c d Hd|l v k c d _ (c0 & l' & d0 & -> & Hd0) Hd
                 |l v k c d _ (c0 & l' & d0 & -> & Hd0) Hd]; eauto.
Qed.

Lemma digit_run_last l v k :
  digit_run l v k → ∃ l' c d, l = l' ++ [c] ∧ digit_of c = Some d.
Proof.
  induction 1 as [c d Hd|l v k c d _ _ Hd|l v k c d _ _ Hd].
  - by exists [], c, d.
  - by exists l, c, d.
  - exists (l ++ [underscore]), c, d. by rewrite <- app_assoc.
Qed.

Lemma drop_c_spaces_lead (lead l : list N) :
  Forall (λ c, is_c_space c = true) lead →
  drop_c_spaces (lead ++ l) = drop_c_spaces l.
Proof. induction 1 as [|c lead Hc _ IH]; [done|]. simpl. by rewrite Hc. Qed.

Lemma drop_c_spaces_split l :
  ∃ lead, l = lead ++ drop_c_spaces l ∧ Forall (λ c, is_c_space c = true) lead.
Proof.
  induction l as [|c l (lead & Hl & Hlead)]; [by exists []|].
  simpl. destruct (is_c_space c) eqn:Hc.
  - exists (c :: lead). split; [by rewrite <- app_comm_cons, <- Hl|by constructor].
  - by exists [].
Qed.

Lemma strip_c_spaces_split l :
  ∃ lead trail, l = lead ++ strip_c_spaces l ++ trail ∧
    Forall (λ c, is_c_space c = true) lead ∧
    Forall (λ c, is_c_space c = true) trail.
Proof.
  unfold strip_c_spaces.
  destruct (drop_c_spaces_split l) as (lead & Hl & Hlead).
  destruct (drop_c_spaces_split (rev (drop_c_spaces l))) as (trail & Hr & Htrail).
  exists lead, (rev trail). split; [|split; [done|by apply Forall_rev]].
  rewrite Hl at 1. f_equal.
  rewrite <- (rev_involutive (drop_c_spaces l)) at 1. rewrite Hr at 1.
  by rewrite rev_app_distr.
Qed.

Lemma strip_c_spaces_body (lead body trail : list N) (first last : N) (mid : list N) :
  Forall (λ c, is_c_space c = true) lead →
  Forall (λ c, is_c_space c = true) trail →
  body = first :: mid → is_c_space first = false →
  (∃ init, body = init ++ [last]) → is_c_space last = false →
  strip_c_spaces (lead ++ body ++ trail) = body.
Proof.
  intros Hlead Htrail Hfirst Hf (init & Hlast) Hl. unfold strip_c_spaces.
  rewrite (drop_c_spaces_lead lead _ Hlead).
  assert (drop_c_spaces (body ++ trail) = body ++ trail) as ->.
  { rewrite Hfirst. simpl. by rewrite Hf. }
  rewrite rev_app_distr, (drop_c_spaces_lead (rev trail)) by (by apply Forall_rev).
  rewrite Hlast, rev_app_distr. simpl. rewrite Hl.
  simpl. by rewrite rev_involutive.
Qed.

(** [int()] reads exactly the integer literals. *)
Lemma int_of_codes_spec l (n : Z) : int_of_codes l = Some n ↔ int_literal l n.
Proof.
  split.
  - unfold int_of_codes.
    destruct (strip_c_spaces_split l) as (lead & trail & Hl & Hlead & Htrail).
    set (body := strip_c_spaces l) in *.
    assert (Hcases : ∃ sign digits (negative : bool),
      body = sign ++ digits ∧
      (match body with
       | c :: rest =>
           if (c =? plus_sign)%N then (false, rest)
           else if (c =? minus_sign)%N then (true, rest)
           else (false, body)
       | [] => (false, body)
       end) = (negative, digits) ∧
      (negative = false ∧ (sign = [] ∨ sign = [plus_sign]) ∨
       negative = true ∧ sign = [minus_sign])).
    { destruct body as [|c rest]; [exists [], [], false; naive_solver|].
      destruct (N.eqb_spec c plus_sign) as [->|];
        [exists [plus_sign], rest, false; naive_solver|].
      destruct (N.eqb_spec c minus_sign) as [->|];
        [exists [minus_sign], rest, true; naive_solver|].
      exists [], (c :: rest), false. naive_solver. }
    destruct Hcases as (sign & digits & negative & Hbody & -> & Hsign).
    destruct (parse_digits digits 0 0 false) as [[v k]|] eqn:Hp; [|done].
    destruct (Nat.leb_spec k max_str_digits); [|done].
    intros [= <-]. exists lead, sign, digits, trail, v, k.
    split; [by rewrite Hl, Hbody, <- app_assoc|].
    split; [done|]. split; [done|]. split; [by apply parse_run|]. split; [done|].
    destruct Hsign as [[-> Hs]|[-> Hs]]; [left|right]; done.
  - intros (lead & sign & body & trail & v & k & -> & Hlead & Htrail & Hrun & Hk & Hsign).
    destruct (digit_run_first _ _ _ Hrun) as (c0 & l0 & d0 & Hb0 & Hd0).
    destruct (digit_run_last _ _ _ Hrun) as (l1 & c1 & d1 & Hb1 & Hd1).
    pose proof (digit_not_sign _ _ Hd0) as [Hnp Hnm].
    pose proof (run_parse _ _ _ Hrun []) as Hparse. rewrite app_nil_r in Hparse.
    simpl in Hparse.
    assert (Hstrip : strip_c_spaces (lead ++ sign ++ body ++ trail) = sign ++ body).
    { rewrite (app_assoc sign).
      destruct Hsign as [[[->| ->] _]|[-> _]].
      - eapply (strip_c_spaces_body _ _ _ c0 c1 l0); eauto using digit_not_c_space.
      - eapply (strip_c_spaces_body _ _ _ plus_sign c1 (body)); eauto using digit_not_c_space.
        exists (plus_sign :: l1). by rewrite Hb1.
      - eapply (strip_c_spaces_body _ _ _ minus_sign c1 (body)); eauto using digit_not_c_space.
        exists (minus_sign :: l1). by rewrite Hb1. }
    unfold int_of_codes. rewrite Hstrip.
    destruct Hsign as [[[->| ->] ->]|[-> ->]]; simpl.
    + rewrite Hb0 at 1. rewrite Hnp, Hnm, <- ?Hb0, Hparse.
      by destruct (Nat.leb_spec k max_str_digits); [|lia].
    + rewrite Hparse. by destruct (Nat.leb_spec k max_str_digits); [|lia].
    + rewrite Hparse. by destruct (Nat.leb_spec k max_str_digits); [|lia].
Qed.

End int_facts.

Section reading_parameters.
Context {U : UnicodeData}.

Lemma int_of_str_spec (s : string) (n : Z) :
  int_of_str s = Some n ↔ py_int_literal s n.
Proof. apply int_of_codes_spec. Qed.

Lemma int_arg_reads (args : gmap string string) (key : string) (dflt : Z) :
  match int_arg args key dflt with
  | Normal n => reads_as (args !! key) dflt n
  | Raised e => exn_cls e = ValueError ∧ ¬ ∃ n, reads_as (args !! key) dflt n
  end.
Proof.
  unfold int_arg, reads_as. destruct (args !! key) as [s|]; [|done].
  destruct (int_of_str s) as [n|] eqn:Hs.
  - by apply int_of_str_spec.
  - split; [done|]. intros [n Hn%int_of_str_spec]. congruence.
Qed.

Lemma reads_as_unique (raw : option string) (dflt n n' : Z) :
  reads_as raw dflt n → reads_as raw dflt n' → n = n'.
Proof.
  destruct raw as [s|]; simpl; [|congruence].
  intros H1%int_of_str_spec H2%int_of_str_spec. congruence.
Qed.

End reading_parameters.

(** ** The views *)

(** A reddit view that rejects its input does so by returning a 400
    response, before any statement. *)
Lemma reddit_validation_rejected_400 (f : work view_rv) :
  reddit_validation_rejected f → ∃ body, f = Ret (RvStatus body 400).
Proof.
  intros [m title username link Ht Hu Hl Hblank|post_id m Hfalsy].
  - exists (error_body "Title, link, username are required").
    unfold create_post, py_get. rewrite Ht, Hu, Hl. simpl.
    assert ((py_strip title =? "")%string || (py_strip username =? "")%string
            || (py_strip link =? "")%string = true) as ->; [|done].
    destruct Hblank as [-> | [-> | ->]]; simpl; by rewrite ?orb_true_r.
  - exists (error_body "Text, or username field not provided").
    unfold post_comment, py_get. simpl.
    assert (negb (json_truthy (default JNull (m !! "text")))
            || negb (json_truthy (default JNull (m !! "username"))) = true) as ->;
      [|done].
    destruct Hfalsy as [-> | ->]; simpl; by rewrite ?orb_true_r.
Qed.

Section pagination_facts.
Context {U : UnicodeData}.

Lemma page_parameters_raises args e :
  page_parameters args = Raised e → exn_cls e = ValueError.
Proof.
  unfold page_parameters, int_arg.
  destruct (args !! "pageSize") as [s|]; [destruct (int_of_str s)|];
    (destruct (args !! "pageNumber") as [s'|]; [destruct (int_of_str s')|]);
    try (intros [= <-]; done);
    (destruct (_ || _); [intros [= <-]; done|done]).
Qed.

(** The pagination check is the first thing [get_users] does. *)
Lemma get_users_invalid_pagination args e :
  page_parameters args = Raised e →
  get_users args = Ret (RvStatus (error_body "Invalid pagination parameters") 400).
Proof.
  intros Hraise. unfold get_users, get_users_pagination. rewrite Hraise.
  by rewrite decide_True by (by eapply page_parameters_raises).
Qed.

(** A view that rejects its input does so by returning a 400 response,
    before any statement. *)
Lemma validation_rejected_400 (f : work view_rv) :
  validation_rejected f → ∃ body, f = Ret (RvStatus body 400).
Proof.
  intros [m title username link Ht Hu Hl Hblank|post_id m Hfalsy|args e Hraise].
  - apply reddit_validation_rejected_400. by econstructor.
  - apply reddit_validation_rejected_400. by constructor.
  - exists (error_body "Invalid pagination parameters").
    by eapply get_users_invalid_pagination.
Qed.

End pagination_facts.

Section view_facts.
Context {E : Engine}.
Implicit Types (w : World) (cur : Cursor) (c : nat).

(** The decorated function around a view that returns at once. *)
Lemma with_db_connection_ret (rv : view_rv) w :
  g_conn w = None → db_reachable w = true →
  (with_db_connection (Ret rv) w).1 = Normal rv ∧
  db_committed (with_db_connection (Ret rv) w).2 = db_committed w ∧
  request_events w (with_db_connection (Ret rv) w).2 =
    [EvConnect (length (conns w)); EvCursor (length (conns w));
     EvCommit (length (conns w)); EvCursorClose (length (conns w));
     EvConnClose (length (conns w))].
Proof.
  intros Hg Hr. set (c := length (conns w)).
  destruct (get_db_connection_fresh w Hg Hr) as [Hget Hopen]. fold c in Hget, Hopen.
  destruct (with_db_connection_acquired (Ret rv) w c _ (Normal rv) (fresh_cursor c) _
              Hget Hopen eq_refl) as (co & Hco & _ & ->).
  simpl in Hco. unfold c in Hco. rewrite lookup_app_r, Nat.sub_diag in Hco by done.
  injection Hco as <-. simpl. split; [done|]. split; [done|].
  unfold request_events. simpl. by rewrite <- !app_assoc, drop_app_length.
Qed.

(** [delete_post] never gets past the binding of its argument. *)
Lemma delete_post_raises (post_id : Z) cur w :
  cur_closed cur = false → conn_open (cur_conn cur) w = true →
  run_work (delete_post post_id) cur w =
    (Raised (mkExn TypeError "'int' object does not support indexing"), cur, w).
Proof.
  intros Hcur Hopen. apply conn_open_lookup in Hopen as (co & Hco & Hcl).
  unfold delete_post. simpl. unfold cursor_execute.
  by rewrite Hcur, Hco, Hcl.
Qed.

(** Whatever the store holds, a DELETE request is answered 500 and
    changes nothing. *)
Lemma delete_post_always_500 (post_id : Z) w :
  g_conn w = None → db_reachable w = true →
  (reddit_request (delete_post post_id) w).1 =
    Normal (RvStatus (error_body "'int' object does not support indexing") 500) ∧
  db_committed (reddit_request (delete_post post_id) w).2 = db_committed w ∧
  Forall (λ ev, ¬ is_execute_of (length (conns w)) ev)
    (request_events w (reddit_request (delete_post post_id) w).2).
Proof.
  intros Hg Hr. set (c := length (conns w)).
  destruct (get_db_connection_fresh w Hg Hr) as [Hget Hopen]. fold c in Hget, Hopen.
  assert (Hrun := delete_post_raises post_id (fresh_cursor c)
                    (log (EvCursor c) (connected w)) eq_refl Hopen).
  destruct (with_db_connection_acquired _ w c _ _ _ _ Hget Hopen Hrun)
    as (co & Hco & _ & Hwith).
  unfold reddit_request. rewrite Hwith. simpl.
  unfold close_db_connection, finished. simpl. split; [done|].
  unfold conn_close, set_g, log. simpl.
  rewrite list_lookup_insert_eq by (by eapply lookup_lt_Some). simpl.
  split; [done|].
  unfold request_events. simpl. rewrite <- !app_assoc, drop_app_length. simpl.
  repeat (apply Forall_cons; split; [by intros [sql ?]|]). by apply Forall_nil.
Qed.

(** The venmo [get_db_connection] raises before it connects, and the
    decorator does not catch what it raises. *)
Lemma venmo_with_db_connection_raises (f : work view_rv) w :
  g_conn w = None →
  venmo_with_db_connection f w =
    (Raised (mkExn AttributeError "module 'psycopg2' has no attribute 'extras'"), w).
Proof.
  intros Hg. unfold venmo_with_db_connection, venmo_get_db_connection.
  by rewrite Hg.
Qed.

End view_facts.

Section view_theorems.
Context {E : Engine} {U : UnicodeData}.
Implicit Types (w : World).


(** C10: when the body has no ['text'] or an empty one, [edit_comment]
    returns [jsonify({"error": ...})] without a status, before any
    statement, so the response goes out with status 200; every view that
    rejects its input otherwise returns its error with status 400. *)
Theorem edit_comment_missing_text_status_200
    (post_id comments_id : Z) (m : gmap string json) w :
  m !! "text" = None ∨ m !! "text" = Some (JStr "") →
  edit_comment post_id comments_id (JDict m) =
    Ret (Rv (error_body "Text fields are required")) ∧
  flask_status (Rv (error_body "Text fields are required")) = 200 ∧
  (g_conn w = None → db_reachable w = true →
     response_status (reddit_request (edit_comment post_id comments_id (JDict m)) w).1
       = Some 200) ∧
  (∀ f, validation_rejected f → ∃ body, f = Ret (RvStatus body 400)).
Proof.
  intros Htext.
  assert (Hview : edit_comment post_id comments_id (JDict m) =
                  Ret (Rv (error_body "Text fields are required"))).
  { unfold edit_comment, py_get. by destruct Htext as [-> | ->]. }
  split; [done|]. split; [done|]. split; [|apply validation_rejected_400].
  intros Hg Hr. rewrite Hview. unfold reddit_request.
  destruct (with_db_connection_ret (Rv (error_body "Text fields are required")) w Hg Hr)
    as [Hres _].
  destruct (with_db_connection _ w) as [result w']. simpl in *. by rewrite Hres.
Qed.

End view_theorems.

Section pagination_theorems.
Context {U : UnicodeData}.

(** C3: the pagination step of [get_users] reads both parameters as
    integers, the way [int()] reads a [str]: an integer literal in base
    10 (digits of any script, single underscores between digits, an
    optional sign, white space around it, at most 4300 digits); an
    absent parameter stands for its default, 5 and 1.  It gives the 400
    response when one of them does not read as an integer or reads as
    zero or a negative number, and otherwise the limit [pageSize] and the
    offset [(pageNumber - 1) * pageSize]; (5, 1) gives (5, 0), (5, 3)
    gives (5, 10), and (0, 1) and (-1, 2) are rejected. *)
Theorem get_users_pagination_spec (args : gmap string string) :
  let size := args !! "pageSize" in
  let number := args !! "pageNumber" in
  ((¬ ∃ n, reads_as size 5 n) ∨ (¬ ∃ n, reads_as number 1 n) ∨
   (∃ n, reads_as size 5 n ∧ n <= 0) ∨ (∃ n, reads_as number 1 n ∧ n <= 0) →
   get_users_pagination args = Normal invalid_pagination) ∧
  (∀ page_size page_number,
     reads_as size 5 page_size → reads_as number 1 page_number →
     0 < page_size → 0 < page_number →
     get_users_pagination args =
       Normal (Page page_size ((page_number - 1) * page_size) page_number)) ∧
  get_users_pagination (page_args "5" "1") = Normal (Page 5 0 1) ∧
  get_users_pagination (page_args "5" "3") = Normal (Page 5 10 3) ∧
  get_users_pagination (page_args "0" "1") = Normal invalid_pagination ∧
  get_users_pagination (page_args "-1" "2") = Normal invalid_pagination ∧
  get_users_pagination (page_args " +5 " "1_0") = Normal (Page 5 45 10) ∧
  get_users_pagination (page_args "abc" "1") = Normal invalid_pagination ∧
  get_users_pagination (page_args "5.0" "1") = Normal invalid_pagination ∧
  get_users_pagination (page_args "" "1") = Normal invalid_pagination ∧
  get_users_pagination (page_args (String "028" "5") "1") = Normal invalid_pagination.
Proof.
  intros size number. subst size number.
  pose proof (int_arg_reads args "pageSize" 5) as Hs.
  pose proof (int_arg_reads args "pageNumber" 1) as Hn.
  unfold get_users_pagination, page_parameters.
  split; [|split; [|by vm_compute]].
  - intros Hbad.
    destruct (int_arg args "pageSize" 5) as [ps|e1];
      [|destruct Hs as [-> _]; by rewrite decide_True].
    destruct (int_arg args "pageNumber" 1) as [pn|e2];
      [|destruct Hn as [-> _]; by rewrite decide_True].
    assert (ps <= 0 ∨ pn <= 0) as Hle.
    { destruct Hbad as [Hno|[Hno|[(n & Hr & Hle)|(n & Hr & Hle)]]].
      - destruct Hno. by exists ps.
      - destruct Hno. by exists pn.
      - left. by rewrite (reads_as_unique _ _ _ _ Hs Hr).
      - right. by rewrite (reads_as_unique _ _ _ _ Hn Hr). }
    assert ((ps <=? 0) || (pn <=? 0) = true) as ->; [|done].
    apply orb_true_iff. destruct Hle; [left|right]; by apply Z.leb_le.
  - intros page_size page_number Hrs Hrn Hps Hpn.
    destruct (int_arg args "pageSize" 5) as [ps|e1];
      [|destruct Hs as [_ []]; by exists page_size].
    destruct (int_arg args "pageNumber" 1) as [pn|e2];
      [|destruct Hn as [_ []]; by exists page_number].
    rewrite (reads_as_unique _ _ _ _ Hs Hrs), (reads_as_unique _ _ _ _ Hn Hrn).
    destruct (Z.leb_spec page_size 0); [lia|].
    destruct (Z.leb_spec page_number 0); [lia|]. done.
Qed.

End pagination_theorems.

(** ** The model on concrete requests *)

Lemma get_users_pagination_spec_witness :
  @get_users_pagination demo_unicode (page_args "7" "2") = Normal (Page 7 7 2).
Proof.
  apply (proj1 (proj2 (@get_users_pagination_spec demo_unicode (page_args "7" "2"))) 7 2).
  - apply (@int_of_str_spec demo_unicode "7" 7). reflexivity.
  - apply (@int_of_str_spec demo_unicode "2" 2). reflexivity.
  - lia.
  - lia.
Defined.

(** [int()] and [str.strip()] on sample texts. *)
Lemma int_of_str_examples :
  (@int_of_str demo_unicode) <$>
    [" 12 "; "-1"; "+1_000"; "007"; "1__0"; "_1"; "1_"; "- 1"; ""; "abc"; "5.0";
     String "028" "5"; no_break_space +:+ "5" +:+ no_break_space;
     arabic_indic_53; lone_surrogate] =
    [Some 12; Some (-1); Some 1000; Some 7; None; None; None; None; None; None;
     None; None; Some 5; Some 53; None] ∧
  @int_of_str demo_unicode (string_of_bytes (replicate 4300 "1"%char)) ≠ None ∧
  @int_of_str demo_unicode (string_of_bytes (replicate 4301 "1"%char)) = None.
Proof.
  split; [by vm_compute|]. split; [|by vm_compute].
  destruct (@int_of_str demo_unicode (string_of_bytes (replicate 4300 "1"%char)))
    eqn:Hn; [done|]. vm_compute in Hn. discriminate.
Qed.

Lemma py_strip_examples :
  py_strip <$> ["  a b  "; no_break_space +:+ " "; String "028" "x";
                no_break_space +:+ "x" +:+ no_break_space; lone_surrogate] =
    ["a b"; ""; "x"; "x"; lone_surrogate] ∧
  create_post (JDict no_break_space_title_post) =
    Ret (RvStatus (error_body "Title, link, username are required") 400).
Proof. split; by vm_compute. Qed.

Lemma adapt_error_examples :
  adapt_error <$> [JStr "a"; JInt 1; JNull; JList [JInt 1; JDict ∅]; JDict ∅;
                   JStr (String "000" "a"); JStr ("ab" +:+ lone_surrogate)] =
    [None; None; None;
     Some (mkExn ProgrammingError "can't adapt type 'dict'");
     Some (mkExn ProgrammingError "can't adapt type 'dict'");
     Some (mkExn ValueError "A string literal cannot contain NUL (0x00) characters.");
     Some (mkExn UnicodeEncodeError
       "'utf-8' codec can't encode character '\ud800' in position 2: surrogates not allowed")].
Proof. by vm_compute. Qed.

(** C4: post 1 exists and the DELETE statement, were it run with the
    parameter 1, would remove it; yet the request is answered 500 with
    the [TypeError] of the parameter binding, no statement reaches the
    store, the transaction is rolled back and post 1 is still there. *)
Theorem delete_post_of_existing_post_answers_500 :
  demo_execute sql_delete_post [JInt 1] [1; 2] = SqlOk [2] [] 1 ∧
  (@reddit_request demo_engine (delete_post 1) (demo_world true [1; 2])).1 =
    Normal (RvStatus (error_body "'int' object does not support indexing") 500) ∧
  db_committed (@reddit_request demo_engine (delete_post 1)
                  (demo_world true [1; 2])).2 = [1; 2] ∧
  trace (@reddit_request demo_engine (delete_post 1) (demo_world true [1; 2])).2 =
    [EvConnect 0; EvCursor 0; EvRollback 0; EvCursorClose 0;
     EvConnClose 0; EvConnClose 0].
Proof. repeat split; reflexivity. Qed.




Lemma edit_comment_missing_text_status_200_witness :
  edit_comment 1 1 (JDict ∅) = Ret (Rv (error_body "Text fields are required")).
Proof.
  assert (Habsent : (∅ : gmap string json) !! "text" = None
                    ∨ (∅ : gmap string json) !! "text" = Some (JStr ""))
    by (left; reflexivity).
  exact (proj1 (@edit_comment_missing_text_status_200 demo_engine demo_unicode 1 1 ∅
                  (demo_world true [1; 2]) Habsent)).
Defined.

(* ===================================================================== *)
(** * Further properties                                                 *)
(* ===================================================================== *)

(** ** More on the aggregation *)

Section aggregation_more.
Implicit Types (rows : list JoinRow) (r : JoinRow) (k : sqlval).

Lemma filter_ext_in {A} (P Q : A → Prop) `{!∀ x, Decision (P x)}
    `{!∀ x, Decision (Q x)} (l : list A) :
  Forall (λ x, P x ↔ Q x) l → filter P l = filter Q l.
Proof.
  induction 1 as [|x l Hx _ IH]; [done|].
  rewrite !filter_cons, IH.
  destruct (decide (P x)) as [HP|HP]; destruct (decide (Q x)) as [HQ|HQ];
    tauto.
Qed.

Lemma filter_none {A} (P : A → Prop) `{!∀ x, Decision (P x)} (l : list A) :
  Forall (λ x, ¬ P x) l → filter P l = [].
Proof.
  induction 1 as [|x l Hx _ IH]; [done|].
  by rewrite filter_cons, decide_False.
Qed.

(** X1: every parent id of the input shows up exactly once in the output,
    and the output has no other parent ids. *)
Theorem aggregate_parent_ids_unique rows :
  NoDup (p_id <$> aggregate rows) ∧
  ∀ k, k ∈ p_id <$> aggregate rows ↔ k ∈ row0 <$> rows.
Proof.
  rewrite aggregate_keys. split; [apply first_seen_NoDup|].
  intros k. apply first_seen_elem.
Qed.

Lemma sum_indicator (K : list sqlval) k :
  NoDup K → k ∈ K →
  sum_list ((λ k', if decide (k = k') then 1%nat else 0%nat) <$> K) = 1%nat.
Proof.
  induction 1 as [|k0 K Hnin Hnd IH]; [by intros ?%elem_of_nil|].
  rewrite elem_of_cons, fmap_cons. cbn [sum_list]. intros [->|Hin].
  - rewrite decide_True by done.
    assert (sum_list ((λ k', if decide (k0 = k') then 1%nat else 0%nat) <$> K) = 0%nat)
      as ->; [|done].
    clear IH Hnd. induction K as [|k1 K IHK]; [done|].
    rewrite fmap_cons. cbn [sum_list]. rewrite not_elem_of_cons in Hnin.
    destruct Hnin as [Hne Hnin]. rewrite decide_False by done. by rewrite IHK.
  - rewrite decide_False by (intros ->; done). by rewrite IH.
Qed.

Lemma sum_by_key (K : list sqlval) (l : list JoinRow) :
  NoDup K → Forall (λ r, row0 r ∈ K) l →
  sum_list ((λ k, length (filter (λ r, row0 r = k) l)) <$> K) = length l.
Proof.
  intros Hnd. induction 1 as [|r l Hr _ IH].
  - induction K as [|k K IHK]; [done|].
    rewrite fmap_cons. cbn [sum_list]. rewrite filter_nil.
    apply NoDup_cons in Hnd as [_ Hnd]. by rewrite IHK.
  - assert (Hsplit : ∀ K' : list sqlval,
      sum_list ((λ k, length (filter (λ r', row0 r' = k) (r :: l))) <$> K') =
      (sum_list ((λ k', if decide (row0 r = k') then 1%nat else 0%nat) <$> K') +
       sum_list ((λ k, length (filter (λ r', row0 r' = k) l)) <$> K'))%nat).
    { induction K' as [|k K' IHK]; [done|].
      rewrite !fmap_cons. cbn [sum_list]. rewrite IHK, filter_cons.
      destruct (decide (row0 r = k)); unfold id; cbn [length]; lia. }
    rewrite Hsplit, IH, (sum_indicator K (row0 r) Hnd Hr). done.
Qed.

Lemma child_rows_kept k rows :
  child_rows k rows = filter (λ r, row0 r = k) (kept_rows rows).
Proof.
  unfold child_rows, kept_rows. rewrite list_filter_filter.
  apply list_filter_iff. intros r. tauto.
Qed.

(** X2: the loop makes one comment out of every row it keeps and none out of
    the others: the comments of all parents together are as many as the
    rows whose child id is true in Python's sense. *)
Theorem aggregate_total_comments rows :
  total_comments (aggregate rows) = length (kept_rows rows).
Proof.
  unfold total_comments. rewrite aggregate_spec, <- list_fmap_compose.
  rewrite <- (sum_by_key (first_seen (row0 <$> rows)) (kept_rows rows)).
  - rewrite <- first_rows_keys, <- list_fmap_compose. f_equal.
    apply list_fmap_ext. intros i r0 _. simpl.
    by rewrite length_fmap, child_rows_kept.
  - apply first_seen_NoDup.
  - apply Forall_forall. intros r Hr. apply first_seen_elem.
    apply list_elem_of_filter in Hr as [_ Hr]. by apply list_elem_of_fmap_2.
Qed.

Lemma first_rows_app_disjoint (l1 l2 : list JoinRow) :
  Forall (λ r, row0 r ∉ row0 <$> l1) l2 →
  first_rows (l1 ++ l2) = first_rows l1 ++ first_rows l2.
Proof.
  induction l2 as [|r l2 IH] using rev_ind; intros Hdis.
  - by rewrite !app_nil_r.
  - rewrite Forall_app, Forall_singleton in Hdis. destruct Hdis as [Hdis Hr].
    rewrite app_assoc, !first_rows_snoc, IH by done.
    rewrite fmap_app.
    destruct (decide (row0 r ∈ row0 <$> l2)) as [Hin|Hin].
    + rewrite decide_True; [done|]. apply elem_of_app. by right.
    + rewrite decide_False; [by rewrite app_assoc|].
      rewrite elem_of_app. intros [?|?]; contradiction.
Qed.

Lemma first_rows_subseteq rows r : r ∈ first_rows rows → r ∈ rows.
Proof.
  induction rows as [|x rows IH]; cbn [first_rows]; [done|].
  rewrite !elem_of_cons, list_elem_of_filter. intros [->|[_ Hin]]; auto.
Qed.

Lemma child_rows_app k (l1 l2 : list JoinRow) :
  child_rows k (l1 ++ l2) = child_rows k l1 ++ child_rows k l2.
Proof. unfold child_rows. apply filter_app. Qed.

(** X3: row lists that share no parent id are aggregated independently: the
    output for their concatenation is the concatenation of the outputs. *)
Theorem aggregate_app_disjoint (l1 l2 : list JoinRow) :
  Forall (λ r, row0 r ∉ row0 <$> l1) l2 →
  aggregate (l1 ++ l2) = aggregate l1 ++ aggregate l2.
Proof.
  intros Hdis. rewrite !aggregate_spec, first_rows_app_disjoint, fmap_app by done.
  f_equal; apply Forall_fmap_ext_1, Forall_forall.
  - intros r0 Hr0. unfold post_for. f_equal.
    rewrite child_rows_app, (child_rows_absent _ l2), app_nil_r; [done|].
    intros (r2 & Heq & Hr2)%list_elem_of_fmap.
    rewrite Forall_forall in Hdis. apply (Hdis r2 Hr2). rewrite <- Heq.
    apply list_elem_of_fmap_2. by apply first_rows_subseteq.
  - intros r0 Hr0. unfold post_for. f_equal.
    rewrite child_rows_app, (child_rows_absent _ l1); [done|].
    rewrite Forall_forall in Hdis. apply Hdis. by apply first_rows_subseteq.
Qed.

Lemma aggregate_rows_of_one_parent r (rest : list JoinRow) :
  Forall (λ r', row0 r' = row0 r) rest →
  aggregate (r :: rest) =
    [mkPostObj (row0 r) (row1 r) (row2 r) (row3 r) (row4 r)
               (comment_of <$> kept_rows (r :: rest))].
Proof.
  intros Hsame. rewrite aggregate_spec. cbn [first_rows].
  assert (filter (λ r', row0 r' ≠ row0 r) (first_rows rest) = []) as ->.
  { apply filter_none, Forall_forall. intros r' Hr' Hne. apply Hne.
    rewrite Forall_forall in Hsame. by apply Hsame, first_rows_subseteq. }
  rewrite fmap_cons, fmap_nil. unfold post_for. do 3 f_equal.
  unfold child_rows, kept_rows. apply filter_ext_in.
  apply Forall_cons. split; [tauto|].
  eapply Forall_impl; [exact Hsame|]. intros r' Hr'. simpl. tauto.
Qed.

(** X4: rows that all bear one parent id, as the [WHERE p.id = %s] of
    [get_post] returns them, give exactly one parent: it has the scalar
    fields of the first row and one comment per kept row. *)
Theorem aggregate_single_parent r (rest : list JoinRow) :
  Forall (λ r', row0 r' = row0 r) rest →
  aggregate (r :: rest) =
    [mkPostObj (row0 r) (row1 r) (row2 r) (row3 r) (row4 r)
               (comment_of <$> kept_rows (r :: rest))].
Proof. apply aggregate_rows_of_one_parent. Qed.
End aggregation_more.

Lemma aggregate_app_disjoint_witness :
  aggregate ([row_post_one; row_post_one_later] ++ [row_post_two]) =
  aggregate [row_post_one; row_post_one_later] ++ aggregate [row_post_two].
Proof.
  apply (aggregate_app_disjoint [row_post_one; row_post_one_later] [row_post_two]).
  apply Forall_singleton. intros Hin.
  apply elem_of_cons in Hin as [Heq|Hin]; [discriminate|].
  apply elem_of_cons in Hin as [Heq|Hin]; [discriminate|].
  by apply elem_of_nil in Hin.
Defined.

Lemma aggregate_single_parent_witness :
  aggregate [row_post_one; row_post_one_later] =
    [mkPostObj (SInt 1) (SInt 3) (SText "T1") (SText "l1") (SText "a")
               [mkCommentObj (SInt 10) (SInt 0) (SText "hi") (SText "bob")]].
Proof.
  apply (aggregate_single_parent row_post_one [row_post_one_later]).
  apply Forall_singleton. reflexivity.
Defined.

(** ** More on the session manager *)

Section session_more.
Context {E : Engine}.
Implicit Types (w : World) (cur : Cursor) (c : nat).

Lemma cursor_execute_other_conns sql args cur w o cur' w' (i : nat) :
  cursor_execute sql args cur w = (o, cur', w') → i ≠ cur_conn cur →
  conns w' !! i = conns w !! i.
Proof.
  unfold cursor_execute. intros Hex Hi.
  destruct (cur_closed cur); [by injection Hex as <- <- <-|].
  destruct (conns w !! cur_conn cur) as [co|]; [|by injection Hex as <- <- <-].
  destruct (conn_closed co); [by injection Hex as <- <- <-|].
  destruct (bind_args sql args) as [params|e]; [|by injection Hex as <- <- <-].
  destruct (sql_execute sql params (conn_store co)) as [s rows n|msg];
    injection Hex as <- <- <-; simpl; [|done].
  by rewrite list_lookup_insert_ne.
Qed.

Lemma run_work_other_conns {A} (m : work A) cur w o cur' w' (i : nat) :
  run_work m cur w = (o, cur', w') → i ≠ cur_conn cur →
  conns w' !! i = conns w !! i.
Proof.
  revert cur w. induction m as [a|e|sql args k IH|k IH|k IH|k IH];
    intros cur w; simpl.
  - by intros [= <- <- <-].
  - by intros [= <- <- <-].
  - destruct (cursor_execute sql args cur w) as [[[[]|e] cur1] w1] eqn:Hex.
    + intros Hrun Hi.
      pose proof (cursor_execute_preserves _ _ _ _ _ _ _ Hex) as [Hc _ _ _ _ _ _].
      rewrite (IH _ _ Hrun) by congruence.
      by eapply cursor_execute_other_conns.
    + intros [= <- <- <-] Hi. by eapply cursor_execute_other_conns.
  - destruct (cur_closed cur); [by intros [= <- <- <-]|].
    intros Hrun Hi. by apply (IH _ _ _ Hrun).
  - destruct (cur_closed cur); [by intros [= <- <- <-]|].
    intros Hrun Hi. by apply (IH _ _ _ Hrun).
  - intros Hrun Hi. by apply (IH _ _ _ Hrun).
Qed.

(** The decorated function in a fresh request context with the store
    reachable, in terms of what the view does on its cursor. *)
Lemma with_db_connection_fresh_run (f : work view_rv) w o cur' w3 :
  g_conn w = None → db_reachable w = true →
  run_work f (fresh_cursor (length (conns w))) (session_start w) = (o, cur', w3) →
  ∃ s3, transaction_state (length (conns w)) w3 = Some s3 ∧
    with_db_connection f w =
      match o with
      | Normal response =>
          (Normal response,
           finished (length (conns w)) (EvCommit (length (conns w))) s3 w3)
      | Raised e =>
          (Normal (RvStatus (error_body (exn_msg e)) 500),
           finished (length (conns w)) (EvRollback (length (conns w)))
                    (db_committed w) w3)
      end.
Proof.
  intros Hg Hr Hrun. set (c := length (conns w)) in *.
  destruct (get_db_connection_fresh w Hg Hr) as [Hget Hopen]. fold c in Hget, Hopen.
  destruct (with_db_connection_acquired f w c _ o cur' w3 Hget Hopen Hrun)
    as (co & Hco & _ & Hwith).
  pose proof (run_work_preserves _ _ _ _ _ _ Hrun) as [_ _ Hd _ _ _ _].
  simpl in Hd. exists (conn_store co). split.
  - unfold transaction_state. by rewrite Hco.
  - rewrite Hwith. by rewrite Hd.
Qed.

Lemma finished_all_closed c ev (s : Store) w3 w :
  c = length (conns w) →
  (∀ i, i ≠ c → conns w3 !! i = conns (session_start w) !! i) →
  all_closed w → all_closed (finished c ev s w3).
Proof.
  intros -> Hother Hclosed. unfold all_closed, finished. simpl.
  apply Forall_lookup. intros i co Hi.
  destruct (decide (i = length (conns w))) as [->|Hne].
  - apply list_lookup_insert_Some in Hi as [(_ & <- & _)|[? _]]; done.
  - rewrite list_lookup_insert_ne in Hi by done.
    rewrite Hother in Hi by done. simpl in Hi.
    apply lookup_app_Some in Hi as [Hi|[Hge Hi]].
    + unfold all_closed in Hclosed. rewrite Forall_lookup in Hclosed. by eapply Hclosed.
    + destruct (i - length (conns w))%nat eqn:Hd; [lia|done].
Qed.

(** X5: whatever the view does and whether or not the store can be reached,
    a request that starts without a cached connection and with no open
    connection ends with no open connection; the reddit teardown also
    leaves [g] without a connection. *)
Theorem request_leaves_no_open_connection (f : work view_rv) w :
  g_conn w = None → all_closed w →
  all_closed (venmo_request f w).2 ∧
  all_closed (reddit_request f w).2 ∧
  g_conn (reddit_request f w).2 = None.
Proof.
  intros Hg Hclosed. split.
  { unfold venmo_request. by rewrite venmo_with_db_connection_raises. }
  unfold reddit_request.
  destruct (db_reachable w) eqn:Hr.
  - destruct (run_work f (fresh_cursor (length (conns w))) (session_start w))
      as [[o cur'] w3] eqn:Hrun.
    destruct (with_db_connection_fresh_run f w o cur' w3 Hg Hr Hrun)
      as (s3 & Hs3 & Hwith).
    pose proof (run_work_preserves _ _ _ _ _ _ Hrun) as [_ _ _ Hg3 _ _ _].
    simpl in Hg3.
    assert (Hother : ∀ i, i ≠ length (conns w) →
              conns w3 !! i = conns (session_start w) !! i).
    { intros i Hi. by eapply run_work_other_conns. }
    assert (Hlt : (length (conns w) < length (conns w3))%nat).
    { unfold transaction_state in Hs3.
      destruct (conns w3 !! length (conns w)) eqn:Hl; [|done].
      by eapply lookup_lt_Some. }
    assert (Hfin : ∀ ev s, all_closed (finished (length (conns w)) ev s w3)).
    { intros ev s. by eapply finished_all_closed. }
    rewrite Hwith. destruct o as [response|e]; simpl;
      unfold close_db_connection; simpl; rewrite Hg3;
      unfold conn_close; simpl; rewrite list_lookup_insert_eq by done; simpl;
      (split; [apply Hfin|done]).
  - unfold with_db_connection.
    rewrite (get_db_connection_unreachable w Hg Hr). simpl.
    unfold close_db_connection. by rewrite Hg.
Qed.

(** X6: the [finally] closes the connection but leaves it cached in [g]: a
    second decorated call in the same request context gets the closed
    connection back and raises [InterfaceError] at [conn.cursor()],
    outside the [try], without touching anything. *)
Theorem second_decorated_call_raises (f1 f2 : work view_rv) w :
  g_conn w = None → db_reachable w = true →
  with_db_connection f2 (with_db_connection f1 w).2 =
    (Raised already_closed, (with_db_connection f1 w).2).
Proof.
  intros Hg Hr.
  destruct (with_db_connection_fresh f1 w Hg Hr)
    as (evs & fin & s & w3 & _ & _ & -> & _ & Hg3 & Hlt).
  unfold with_db_connection at 1.
  rewrite (get_db_connection_cached _ (length (conns w))) by done.
  unfold conn_cursor, conn_open, finished. simpl.
  by rewrite list_lookup_insert_eq.
Qed.

(** X7: the teardown hook takes the connection out of [g], never changes the
    committed state, and running it again changes nothing. *)
Theorem close_db_connection_idempotent w :
  g_conn (close_db_connection w) = None ∧
  db_committed (close_db_connection w) = db_committed w ∧
  close_db_connection (close_db_connection w) = close_db_connection w.
Proof.
  destruct (g_conn w) as [c|] eqn:Hg.
  - assert (Hcl : close_db_connection w = conn_close c (set_g None w))
      by (unfold close_db_connection; by rewrite Hg).
    assert (Hnone : g_conn (conn_close c (set_g None w)) = None).
    { unfold conn_close. simpl. destruct (conns w !! c) as [co|]; [|done].
      by destruct (conn_closed co). }
    rewrite !Hcl. split; [done|]. split.
    + unfold conn_close. simpl. destruct (conns w !! c) as [co|]; [|done].
      by destruct (conn_closed co).
    + unfold close_db_connection at 1. by rewrite Hnone.
  - assert (Hcl : close_db_connection w = w)
      by (unfold close_db_connection; by rewrite Hg).
    by rewrite !Hcl.
Qed.

(** X8: when the store cannot be reached, a request to the reddit service
    is answered with the decorator's 500 response whatever the view is:
    the view does not run, no driver call is recorded and nothing
    changes. *)
Theorem unreachable_store_answers_500 (f : work view_rv) w :
  g_conn w = None → db_reachable w = false →
  reddit_request f w =
    (Normal (RvStatus (error_body "Could not connect to the database") 500), w) ∧
  request_events w (reddit_request f w).2 = [].
Proof.
  intros Hg Hr.
  assert (Hreq : reddit_request f w =
    (Normal (RvStatus (error_body "Could not connect to the database") 500), w)).
  { unfold reddit_request, with_db_connection.
    rewrite (get_db_connection_unreachable w Hg Hr). simpl.
    unfold close_db_connection. by rewrite Hg. }
  split; [done|]. rewrite Hreq. unfold request_events. simpl.
  by rewrite drop_all.
Qed.

End session_more.

Lemma request_leaves_no_open_connection_witness :
  all_closed (@reddit_request demo_engine write_then_fail (demo_world true [1; 2])).2.
Proof.
  apply (proj1 (proj2 (@request_leaves_no_open_connection demo_engine
                         write_then_fail (demo_world true [1; 2]) eq_refl
                         (Forall_nil_2 _)))).
Defined.

Lemma second_decorated_call_raises_witness :
  (@with_db_connection demo_engine get_all_post
     (@with_db_connection demo_engine get_all_post (demo_world true [1; 2])).2).1 =
  Raised already_closed.
Proof.
  rewrite (@second_decorated_call_raises demo_engine get_all_post get_all_post
             (demo_world true [1; 2]) eq_refl eq_refl).
  reflexivity.
Defined.

Lemma unreachable_store_answers_500_witness :
  @reddit_request demo_engine get_all_post (demo_world false [1; 2]) =
    (Normal (RvStatus (error_body "Could not connect to the database") 500),
     demo_world false [1; 2]).
Proof.
  apply (proj1 (@unreachable_store_answers_500 demo_engine get_all_post
                  (demo_world false [1; 2]) eq_refl eq_refl)).
Defined.

(** ** More on the views *)

Section view_more.
Context {E : Engine}.
Implicit Types (w : World) (cur : Cursor) (c : nat).

Lemma session_start_lookup w :
  conns (session_start w) !! length (conns w) =
    Some (mkConnection (db_committed w) false).
Proof. simpl. by rewrite lookup_app_r, Nat.sub_diag. Qed.

Lemma after_statement_lookup c sql (s s0 : Store) w :
  conns w !! c = Some (mkConnection s0 false) →
  conns (after_statement c sql s w) !! c = Some (mkConnection s false).
Proof.
  intros Hc. unfold after_statement. simpl.
  apply list_lookup_insert_eq. by eapply lookup_lt_Some.
Qed.

Lemma cursor_execute_ok sql args l cur w (s s' : Store) rows n :
  cur_closed cur = false →
  conns w !! cur_conn cur = Some (mkConnection s false) →
  bind_args sql args = Normal l →
  sql_execute sql l s = SqlOk s' rows n →
  cursor_execute sql args cur w =
    (Normal (), mkCursor (cur_conn cur) false rows n,
     after_statement (cur_conn cur) sql s' w).
Proof.
  intros Hcur Hco Hbind Hsql. unfold cursor_execute.
  rewrite Hcur, Hco. simpl. by rewrite Hbind, Hsql.
Qed.

Lemma cursor_execute_error sql args l cur w (s : Store) msg :
  cur_closed cur = false →
  conns w !! cur_conn cur = Some (mkConnection s false) →
  bind_args sql args = Normal l →
  sql_execute sql l s = SqlError msg →
  cursor_execute sql args cur w =
    (Raised (mkExn DatabaseError msg), cur, log (EvExecute (cur_conn cur) sql) w).
Proof.
  intros Hcur Hco Hbind Hsql. unfold cursor_execute.
  rewrite Hcur, Hco. simpl. by rewrite Hbind, Hsql.
Qed.

(** One request to the reddit service in a fresh context with the store
    reachable, in terms of what the view does on its cursor. *)
Lemma request_fresh_run (f : work view_rv) w o cur' w3 evs (s3 : Store) :
  g_conn w = None → db_reachable w = true →
  run_work f (fresh_cursor (length (conns w))) (session_start w) = (o, cur', w3) →
  trace w3 = trace (session_start w) ++ evs →
  transaction_state (length (conns w)) w3 = Some s3 →
  let c := length (conns w) in
  (reddit_request f w).1 = answer o ∧
  db_committed (reddit_request f w).2 =
    match o with Normal _ => s3 | Raised _ => db_committed w end ∧
  request_events w (reddit_request f w).2 =
    [EvConnect c; EvCursor c] ++ evs ++
    [ending c o; EvCursorClose c; EvConnClose c; EvConnClose c].
Proof.
  intros Hg Hr Hrun Htr Hs3 c.
  destruct (with_db_connection_fresh_run f w o cur' w3 Hg Hr Hrun)
    as (s3' & Hs3' & Hwith).
  fold c in Hs3, Hs3', Hwith. rewrite Hs3 in Hs3'. injection Hs3' as <-.
  pose proof (run_work_preserves _ _ _ _ _ _ Hrun) as [_ _ _ Hg3 _ _ _].
  simpl in Hg3. fold c in Hg3.
  assert (Hlt : (c < length (conns w3))%nat).
  { unfold transaction_state in Hs3. destruct (conns w3 !! c) eqn:Hl; [|done].
    by eapply lookup_lt_Some. }
  simpl in Htr. fold c in Htr.
  unfold reddit_request. rewrite Hwith.
  destruct o as [response|e]; simpl;
    unfold close_db_connection, request_events; simpl; rewrite Hg3;
    unfold conn_close; simpl; rewrite list_lookup_insert_eq by done; simpl;
    rewrite Htr, <- !app_assoc, !drop_app_length; simpl;
    repeat split; by rewrite <- ?app_assoc.
Qed.

(** A view that never gets to a statement. *)
Lemma request_fresh_no_statement (f : work view_rv) w o :
  g_conn w = None → db_reachable w = true →
  run_work f (fresh_cursor (length (conns w))) (session_start w) =
    (o, fresh_cursor (length (conns w)), session_start w) →
  let c := length (conns w) in
  (reddit_request f w).1 = answer o ∧
  db_committed (reddit_request f w).2 = db_committed w ∧
  request_events w (reddit_request f w).2 =
    [EvConnect c; EvCursor c; ending c o; EvCursorClose c; EvConnClose c;
     EvConnClose c].
Proof.
  intros Hg Hr Hrun c.
  destruct (request_fresh_run f w o _ _ [] (db_committed w) Hg Hr Hrun)
    as (Hres & Hdb & Hev).
  - by rewrite app_nil_r.
  - unfold transaction_state. by rewrite session_start_lookup.
  - split; [done|]. split; [|done]. rewrite Hdb. by destruct o.
Qed.

(** X9: [create_post] calls [.strip()] on each of [title], [username],
    [link] before it validates: when one of them is absent, null or not
    a string, the call raises [AttributeError], no statement is run, and
    the request is answered 500 (not 400) after a rollback. *)
Theorem create_post_non_string_field_answers_500 (m : gmap string json) (v : json) w :
  g_conn w = None → db_reachable w = true →
  first_non_string_field m = Some v →
  let c := length (conns w) in
  (reddit_request (create_post (JDict m)) w).1 =
    Normal (RvStatus (error_body
      ("'" +:+ type_name v +:+ "' object has no attribute 'strip'")) 500) ∧
  db_committed (reddit_request (create_post (JDict m)) w).2 = db_committed w ∧
  request_events w (reddit_request (create_post (JDict m)) w).2 =
    [EvConnect c; EvCursor c; EvRollback c; EvCursorClose c; EvConnClose c;
     EvConnClose c].
Proof.
  intros Hg Hr Hfield c.
  set (e := mkExn AttributeError
              ("'" +:+ type_name v +:+ "' object has no attribute 'strip'")).
  assert (Hview : create_post (JDict m) = Raise e).
  { unfold create_post, py_get. unfold first_non_string_field in Hfield.
    destruct (default JNull (m !! "title")) as [| | | t | |];
      try (injection Hfield as <-; reflexivity).
    destruct (default JNull (m !! "username")) as [| | | u | |];
      try (injection Hfield as <-; reflexivity).
    destruct (default JNull (m !! "link")) as [| | | l | |];
      try (injection Hfield as <-; reflexivity).
    discriminate. }
  rewrite Hview.
  destruct (request_fresh_no_statement (Raise e) w (Raised e) Hg Hr eq_refl)
    as (Hres & Hdb & Hev).
  done.
Qed.

(** X10: the views that read a JSON body call [.get] on it: when the body is
    not an object (a list, a string, a number, [null]), [create_post],
    [post_comment] and [edit_comment] raise [AttributeError] before any
    statement and the request is answered 500. *)
Theorem non_object_body_answers_500 (body : json) (post_id comments_id : Z) w :
  g_conn w = None → db_reachable w = true →
  is_dict body = false →
  let response := Normal (RvStatus (error_body
        ("'" +:+ type_name body +:+ "' object has no attribute 'get'")) 500) in
  let c := length (conns w) in
  let events := [EvConnect c; EvCursor c; EvRollback c; EvCursorClose c;
                 EvConnClose c; EvConnClose c] in
  ((reddit_request (create_post body) w).1 = response ∧
   request_events w (reddit_request (create_post body) w).2 = events) ∧
  ((reddit_request (post_comment post_id body) w).1 = response ∧
   request_events w (reddit_request (post_comment post_id body) w).2 = events) ∧
  ((reddit_request (edit_comment post_id comments_id body) w).1 = response ∧
   request_events w (reddit_request (edit_comment post_id comments_id body) w).2
     = events).
Proof.
  intros Hg Hr Hbody response c events.
  set (e := mkExn AttributeError
              ("'" +:+ type_name body +:+ "' object has no attribute 'get'")).
  assert (Hc : create_post body = Raise e) by (by destruct body).
  assert (Hp : post_comment post_id body = Raise e) by (by destruct body).
  assert (He : edit_comment post_id comments_id body = Raise e) by (by destruct body).
  rewrite Hc, Hp, He.
  destruct (request_fresh_no_statement (Raise e) w (Raised e) Hg Hr eq_refl)
    as (Hres & _ & Hev).
  done.
Qed.

(** A view that runs one statement and then only reads its result. *)
Lemma request_fresh_one_statement sql args l (k : work view_rv) w
    (s' : Store) rows n o cur' :
  g_conn w = None → db_reachable w = true →
  bind_args sql args = Normal l →
  sql_execute sql l (db_committed w) = SqlOk s' rows n →
  run_work k (mkCursor (length (conns w)) false rows n)
    (after_statement (length (conns w)) sql s' (session_start w)) =
    (o, cur', after_statement (length (conns w)) sql s' (session_start w)) →
  let c := length (conns w) in
  (reddit_request (Execute sql args k) w).1 = answer o ∧
  db_committed (reddit_request (Execute sql args k) w).2 =
    match o with Normal _ => s' | Raised _ => db_committed w end ∧
  request_events w (reddit_request (Execute sql args k) w).2 =
    [EvConnect c; EvCursor c; EvExecute c sql; ending c o;
     EvCursorClose c; EvConnClose c; EvConnClose c].
Proof.
  intros Hg Hr Hbind Hsql Hk c.
  assert (Hrun : run_work (Execute sql args k) (fresh_cursor c) (session_start w) =
            (o, cur', after_statement c sql s' (session_start w))).
  { cbn [run_work].
    rewrite (cursor_execute_ok sql args l (fresh_cursor c) (session_start w)
               (db_committed w) s' rows n eq_refl (session_start_lookup w) Hbind Hsql).
    exact Hk. }
  destruct (request_fresh_run _ w o _ _ [EvExecute c sql] s' Hg Hr Hrun)
    as (Hres & Hdb & Hev).
  - reflexivity.
  - unfold transaction_state.
    by rewrite (after_statement_lookup _ _ _ _ _ (session_start_lookup w)).
  - done.
Qed.

(** A view whose first statement fails at the binding of its parameters. *)
Lemma request_fresh_bind_error sql args e (k : work view_rv) w :
  g_conn w = None → db_reachable w = true →
  bind_args sql args = Raised e →
  let c := length (conns w) in
  (reddit_request (Execute sql args k) w).1 =
    Normal (RvStatus (error_body (exn_msg e)) 500) ∧
  db_committed (reddit_request (Execute sql args k) w).2 = db_committed w ∧
  request_events w (reddit_request (Execute sql args k) w).2 =
    [EvConnect c; EvCursor c; EvRollback c; EvCursorClose c; EvConnClose c;
     EvConnClose c].
Proof.
  intros Hg Hr Hbind c.
  apply (request_fresh_no_statement (Execute sql args k) w (Raised e) Hg Hr).
  cbn [run_work]. unfold cursor_execute. simpl.
  rewrite session_start_lookup. simpl. by rewrite Hbind.
Qed.

Lemma bind_args_tuple sql (l : list json) :
  bind_args sql (ArgsTuple l) =
    match adapt_all l with Some e => Raised e | None => Normal l end.
Proof. done. Qed.

Lemma join_rows_nil_iff (rows : list row) (jrows : list JoinRow) :
  join_rows rows = Normal jrows → (rows = [] ↔ jrows = []).
Proof.
  destruct rows as [|r rows]; simpl.
  - by intros [= <-].
  - destruct (join_row_of r); [|done]. destruct (join_rows rows); [|done].
    by intros [= <-].
Qed.

Lemma run_posts_response (msg : string) rows (jrows : list JoinRow) cur w :
  cur_closed cur = false →
  join_rows rows = Normal jrows →
  run_work (rows ← fetchall; posts_response msg rows)
    (mkCursor (cur_conn cur) false rows (cur_rowcount cur)) w =
  (Normal (match rows with
           | [] => RvStatus (error_body msg) 404
           | _ => RvStatus (JDict {[ "posts" :=
                    JList (post_to_json <$> aggregate jrows) ]}) 200
           end),
   mkCursor (cur_conn cur) false [] (cur_rowcount cur), w).
Proof.
  intros Hcur Hjoin. cbn [mbind work_mbind work_bind fetchall run_work cur_closed cur_rows
    cur_conn cur_rowcount].
  unfold posts_response. destruct rows as [|r rows]; [reflexivity|].
  rewrite Hjoin. reflexivity.
Qed.

(** X11: [GET /api/posts/]: when the SELECT returns no row the answer is 404;
    otherwise it is 200 with the aggregated rows, one object per
    distinct post id; the transaction is committed either way. *)
Theorem get_all_post_answers w (s' : Store) rows n (jrows : list JoinRow) :
  g_conn w = None → db_reachable w = true →
  sql_execute sql_select_posts [] (db_committed w) = SqlOk s' rows n →
  join_rows rows = Normal jrows →
  let c := length (conns w) in
  (reddit_request get_all_post w).1 =
    Normal (match rows with
            | [] => RvStatus (error_body "No post not found") 404
            | _ => RvStatus (JDict {[ "posts" :=
                     JList (post_to_json <$> aggregate jrows) ]}) 200
            end) ∧
  length (post_to_json <$> aggregate jrows) =
    length (remove_dups (row0 <$> jrows)) ∧
  db_committed (reddit_request get_all_post w).2 = s' ∧
  request_events w (reddit_request get_all_post w).2 =
    [EvConnect c; EvCursor c; EvExecute c sql_select_posts; EvCommit c;
     EvCursorClose c; EvConnClose c; EvConnClose c].
Proof.
  intros Hg Hr Hsql Hjoin c.
  split; [|split; [by rewrite length_fmap, aggregate_parent_count|]];
    refine (_ (request_fresh_one_statement sql_select_posts ArgsNone []
      (rows ← fetchall; posts_response "No post not found" rows) w s' rows n _ _
      Hg Hr eq_refl Hsql
      (run_posts_response _ rows jrows (mkCursor c false rows n) _ eq_refl Hjoin)));
    intros (Hres & Hdb & Hev); done.
Qed.

(** X12: [GET /api/posts/<id>]: the rows the SELECT returns all bear the
    requested id; no row gives 404 with the id in the message, and any
    number of rows gives 200 with exactly one post, which has the scalar
    fields of the first row and one comment per kept row. *)
Theorem get_post_answers (post_id : Z) w (s' : Store) rows n (jrows : list JoinRow) :
  g_conn w = None → db_reachable w = true →
  sql_execute sql_select_post [JInt post_id] (db_committed w) = SqlOk s' rows n →
  join_rows rows = Normal jrows →
  Forall (λ j, row0 j = SInt post_id) jrows →
  (reddit_request (get_post post_id) w).1 =
    Normal (match jrows with
            | [] => RvStatus (error_body
                      ("No post not found with id = " +:+ pretty post_id)) 404
            | j :: _ =>
                RvStatus (JDict {[ "posts" := JList
                  [post_to_json
                     (mkPostObj (SInt post_id) (row1 j) (row2 j) (row3 j) (row4 j)
                                (comment_of <$> kept_rows jrows))] ]}) 200
            end) ∧
  db_committed (reddit_request (get_post post_id) w).2 = s'.
Proof.
  intros Hg Hr Hsql Hjoin Hsame.
  destruct (request_fresh_one_statement sql_select_post (ArgsTuple [JInt post_id])
      [JInt post_id]
      (rows ← fetchall;
       posts_response ("No post not found with id = " +:+ pretty post_id) rows)
      w s' rows n _ _ Hg Hr eq_refl Hsql
      (run_posts_response _ rows jrows (mkCursor (length (conns w)) false rows n)
         _ eq_refl Hjoin)) as (Hres & Hdb & _).
  split; [|done].
  change (get_post post_id) with
    (Execute sql_select_post (ArgsTuple [JInt post_id])
       (rows ← fetchall;
        posts_response ("No post not found with id = " +:+ pretty post_id) rows)).
  rewrite Hres. unfold answer. f_equal.
  pose proof (join_rows_nil_iff rows jrows Hjoin) as Hnil.
  destruct jrows as [|j js].
  - by rewrite (proj2 Hnil eq_refl).
  - destruct rows as [|r rows]; [by destruct (proj1 Hnil eq_refl)|].
    apply Forall_cons in Hsame as [Hj Hjs].
    rewrite aggregate_rows_of_one_parent.
    + by rewrite Hj.
    + eapply Forall_impl; [exact Hjs|]. intros j' Hj'. simpl. congruence.
Qed.

(** X13: [POST /api/posts/] with three non-blank string fields: the INSERT
    gets the stripped values in the order title, link, username.  When
    one of them cannot be adapted to SQL (it holds a NUL character or a
    lone surrogate) psycopg2 raises before the statement is sent and the
    answer is 500 after a rollback.  Otherwise, when the INSERT returns a
    row with an id and an upvote count the answer is 201 and echoes the
    stripped values, else it is 500; the transaction is committed in
    both cases. *)
Theorem create_post_answers (m : gmap string json) (title username link : string)
    w (s' : Store) rows n :
  g_conn w = None → db_reachable w = true →
  m !! "title" = Some (JStr title) →
  m !! "username" = Some (JStr username) →
  m !! "link" = Some (JStr link) →
  py_strip title ≠ "" → py_strip username ≠ "" → py_strip link ≠ "" →
  let params :=
    [JStr (py_strip title); JStr (py_strip link); JStr (py_strip username)] in
  let c := length (conns w) in
  (∀ e, adapt_all params = Some e →
     (reddit_request (create_post (JDict m)) w).1 =
       Normal (RvStatus (error_body (exn_msg e)) 500) ∧
     db_committed (reddit_request (create_post (JDict m)) w).2 = db_committed w ∧
     request_events w (reddit_request (create_post (JDict m)) w).2 =
       [EvConnect c; EvCursor c; EvRollback c; EvCursorClose c; EvConnClose c;
        EvConnClose c]) ∧
  (adapt_all params = None →
   sql_execute sql_insert_post params (db_committed w) = SqlOk s' rows n →
   (reddit_request (create_post (JDict m)) w).1 =
     Normal (match head rows with
             | Some (new_post_id :: new_post_upvotes :: _) =>
                 RvStatus (JDict {[ "post" := JDict (list_to_map
                   [("id", json_of_sql new_post_id);
                    ("upvotes", json_of_sql new_post_upvotes);
                    ("title", JStr (py_strip title));
                    ("username", JStr (py_strip username));
                    ("link", JStr (py_strip link))]) ]}) 201
             | _ => RvStatus (error_body "Failed to create post, no data returned") 500
             end) ∧
   db_committed (reddit_request (create_post (JDict m)) w).2 = s' ∧
   request_events w (reddit_request (create_post (JDict m)) w).2 =
     [EvConnect c; EvCursor c; EvExecute c sql_insert_post; EvCommit c;
      EvCursorClose c; EvConnClose c; EvConnClose c]).
Proof.
  intros Hg Hr Ht Hu Hl Hst Hsu Hsl params c.
  apply String.eqb_neq in Hst, Hsu, Hsl.
  assert (Hview : ∃ k, create_post (JDict m) =
    Execute sql_insert_post (ArgsTuple params) (Fetchone k) ∧
    ∀ r, k r = Ret (match r with
            | Some (new_post_id :: new_post_upvotes :: _) =>
                RvStatus (JDict {[ "post" := JDict (list_to_map
                  [("id", json_of_sql new_post_id);
                   ("upvotes", json_of_sql new_post_upvotes);
                   ("title", JStr (py_strip title));
                   ("username", JStr (py_strip username));
                   ("link", JStr (py_strip link))]) ]}) 201
            | _ => RvStatus (error_body "Failed to create post, no data returned") 500
            end)).
  { eexists. split.
    - unfold create_post, py_get. rewrite Ht, Hu, Hl.
      simpl. rewrite Hst, Hsu, Hsl. simpl. reflexivity.
    - intros [[|a [|b r]]|]; reflexivity. }
  destruct Hview as (k & -> & Hk). split.
  - intros e He. apply request_fresh_bind_error; [done|done|].
    by rewrite bind_args_tuple, He.
  - intros Hadapt Hsql.
    refine (_ (request_fresh_one_statement sql_insert_post (ArgsTuple params) params
                 (Fetchone k) w s' rows n (Normal _) _ Hg Hr _ Hsql _)).
    + intros (Hres & Hdb & Hev). split; [exact Hres|]. split; [exact Hdb|exact Hev].
    + by rewrite bind_args_tuple, Hadapt.
    + cbn [run_work cur_closed cur_rows cur_conn cur_rowcount]. rewrite Hk. reflexivity.
Qed.

(** X14: [POST /api/posts/<id>/comments] with a text and a username that are
    true in Python's sense: the INSERT gets (post id, text, username).
    When one of the two cannot be adapted to SQL (a JSON object, a string
    with a NUL character or a lone surrogate, a list holding one of
    these) psycopg2 raises before the statement is sent and the answer is
    500 after a rollback.  Otherwise a returned id that is true gives
    201, echoing the body fields with 0 upvotes; a returned id of 0 gives
    500 although the insert is committed; no returned row raises and is
    rolled back. *)
Theorem post_comment_answers (post_id : Z) (m : gmap string json) w
    (s' : Store) rows n :
  g_conn w = None → db_reachable w = true →
  let text := default JNull (m !! "text") in
  let username := default JNull (m !! "username") in
  json_truthy text = true → json_truthy username = true →
  let params := [JInt post_id; text; username] in
  let c := length (conns w) in
  (∀ e, adapt_all params = Some e →
     (reddit_request (post_comment post_id (JDict m)) w).1 =
       Normal (RvStatus (error_body (exn_msg e)) 500) ∧
     db_committed (reddit_request (post_comment post_id (JDict m)) w).2 =
       db_committed w ∧
     request_events w (reddit_request (post_comment post_id (JDict m)) w).2 =
       [EvConnect c; EvCursor c; EvRollback c; EvCursorClose c; EvConnClose c;
        EvConnClose c]) ∧
  (adapt_all params = None →
   sql_execute sql_insert_comment params (db_committed w) = SqlOk s' rows n →
   (reddit_request (post_comment post_id (JDict m)) w).1 =
     Normal (match head rows with
             | Some (new_comment_id :: _) =>
                 if truthy new_comment_id
                 then RvStatus (JDict (list_to_map
                        [("id", json_of_sql new_comment_id);
                         ("post_id", JInt post_id); ("upvotes", JInt 0);
                         ("text", text); ("username", username)])) 201
                 else RvStatus (error_body "Failed to create comment.") 500
             | Some [] => RvStatus (error_body "tuple index out of range") 500
             | None => RvStatus (error_body
                         "'NoneType' object is not subscriptable") 500
             end) ∧
   db_committed (reddit_request (post_comment post_id (JDict m)) w).2 =
     match head rows with
     | Some (_ :: _) => s'
     | _ => db_committed w
     end).
Proof.
  intros Hg Hr text username Htext Huser params c.
  assert (Hview : ∃ k, post_comment post_id (JDict m) =
    Execute sql_insert_comment (ArgsTuple params) (Fetchone k) ∧
    ∀ r, k r =
      (new_comment_id ← lift (first_column r);
       if truthy new_comment_id
       then Ret (RvStatus (JDict (list_to_map
              [("id", json_of_sql new_comment_id); ("post_id", JInt post_id);
               ("upvotes", JInt 0); ("text", text); ("username", username)])) 201)
       else Ret (RvStatus (error_body "Failed to create comment.") 500))).
  { eexists. split.
    - unfold post_comment, py_get. simpl. fold text username.
      rewrite Htext, Huser. simpl. reflexivity.
    - intros r. reflexivity. }
  destruct Hview as (k & -> & Hk). split.
  { intros e He. apply request_fresh_bind_error; [done|done|].
    by rewrite bind_args_tuple, He. }
  intros Hadapt Hsql.
  assert (Hbind : bind_args sql_insert_comment (ArgsTuple params) = Normal params)
    by (by rewrite bind_args_tuple, Hadapt).
  destruct (head rows) as [[|a r]|] eqn:Hhead; [|destruct (truthy a) eqn:Ha|];
    (edestruct (request_fresh_one_statement sql_insert_comment
        (ArgsTuple params) params (Fetchone k) w s' rows n) as (Hres & Hdb & _);
      [exact Hg|exact Hr|exact Hbind|exact Hsql
      |cbn [run_work cur_closed cur_rows cur_conn cur_rowcount];
       rewrite Hk, Hhead; simpl; rewrite ?Ha; reflexivity
      |rewrite Hres, Hdb; done]).
Qed.

(** X15: [PUT /api/posts/<id>/comments/<id>] with a text that is true in
    Python's sense: the UPDATE gets (text, post id, comment id).  When
    the text cannot be adapted to SQL (a JSON object, a string with a NUL
    character or a lone surrogate, a list holding one of these) psycopg2
    raises before the statement is sent and the answer is 500 after a
    rollback.  Otherwise, when the UPDATE returns no row the answer is
    404, when it returns a row the answer is 200 with that row's id, post
    id, text, username and upvotes; the transaction is committed either
    way. *)
Theorem edit_comment_answers (post_id comments_id : Z) (m : gmap string json) w
    (s' : Store) rows n :
  g_conn w = None → db_reachable w = true →
  let text := default JNull (m !! "text") in
  json_truthy text = true →
  let params := [text; JInt post_id; JInt comments_id] in
  let c := length (conns w) in
  (∀ e, adapt_all params = Some e →
     (reddit_request (edit_comment post_id comments_id (JDict m)) w).1 =
       Normal (RvStatus (error_body (exn_msg e)) 500) ∧
     db_committed (reddit_request (edit_comment post_id comments_id (JDict m)) w).2 =
       db_committed w ∧
     request_events w (reddit_request (edit_comment post_id comments_id (JDict m)) w).2 =
       [EvConnect c; EvCursor c; EvRollback c; EvCursorClose c; EvConnClose c;
        EvConnClose c]) ∧
  (adapt_all params = None →
   sql_execute sql_update_comment params (db_committed w) = SqlOk s' rows n →
   (head rows = None →
    (reddit_request (edit_comment post_id comments_id (JDict m)) w).1 =
      Normal (RvStatus (error_body "Comment not found") 404) ∧
    db_committed (reddit_request (edit_comment post_id comments_id (JDict m)) w).2
      = s') ∧
   (∀ v0 v1 v2 v3 v4 more, head rows = Some (v0 :: v1 :: v2 :: v3 :: v4 :: more) →
    (reddit_request (edit_comment post_id comments_id (JDict m)) w).1 =
      Normal (RvStatus (JDict (list_to_map
        [("id", json_of_sql v0); ("post_id", json_of_sql v1);
         ("text", json_of_sql v2); ("username", json_of_sql v3);
         ("upvotes", json_of_sql v4)])) 200) ∧
    db_committed (reddit_request (edit_comment post_id comments_id (JDict m)) w).2
      = s')).
Proof.
  intros Hg Hr text Htext params c.
  assert (Hview : ∃ k, edit_comment post_id comments_id (JDict m) =
    Execute sql_update_comment (ArgsTuple params) (Fetchone k) ∧
    k None = Ret (RvStatus (error_body "Comment not found") 404) ∧
    ∀ v0 v1 v2 v3 v4 more, k (Some (v0 :: v1 :: v2 :: v3 :: v4 :: more)) =
      Ret (RvStatus (JDict (list_to_map
        [("id", json_of_sql v0); ("post_id", json_of_sql v1);
         ("text", json_of_sql v2); ("username", json_of_sql v3);
         ("upvotes", json_of_sql v4)])) 200)).
  { eexists. split.
    - unfold edit_comment, py_get. simpl. fold text. rewrite Htext. simpl.
      reflexivity.
    - split; [|intros v0 v1 v2 v3 v4 more]; reflexivity. }
  destruct Hview as (k & -> & Hnone & Hsome). split.
  { intros e He. apply request_fresh_bind_error; [done|done|].
    by rewrite bind_args_tuple, He. }
  intros Hadapt Hsql.
  assert (Hbind : bind_args sql_update_comment (ArgsTuple params) = Normal params)
    by (by rewrite bind_args_tuple, Hadapt).
  split; [intros Hhead|intros v0 v1 v2 v3 v4 more Hhead];
    (edestruct (request_fresh_one_statement sql_update_comment
        (ArgsTuple params) params (Fetchone k) w s' rows n) as (Hres & Hdb & _);
      [exact Hg|exact Hr|exact Hbind|exact Hsql
      |cbn [run_work cur_closed cur_rows cur_conn cur_rowcount];
       rewrite Hhead, ?Hnone, ?Hsome; reflexivity
      |rewrite Hres, Hdb; done]).
Qed.

Lemma comments_data_rows (rows : list row) (data : list json) :
  comments_data rows = Normal data →
  Forall2 (λ r d, comment_row_to_json r = Normal d) rows data.
Proof.
  revert data. induction rows as [|r rows IH]; intros data; cbn [comments_data].
  - intros [= <-]. constructor.
  - destruct (comment_row_to_json r) as [d|e] eqn:Hr; [|done].
    destruct (comments_data rows) as [ds|e]; [|done].
    intros [= <-]. constructor; [done|]. by apply IH.
Qed.

(** X16: [GET /api/posts/<id>/comments]: no row gives 404 with the post id in
    the message; otherwise the answer is 200 with one object per row, in
    row order, built from the first five columns of the row. *)
Theorem get_comments_for_post_answers (post_id : Z) w (s' : Store) rows n
    (data : list json) :
  g_conn w = None → db_reachable w = true →
  sql_execute sql_select_comments [JInt post_id] (db_committed w) = SqlOk s' rows n →
  comments_data rows = Normal data →
  (reddit_request (get_comments_for_post post_id) w).1 =
    Normal (match rows with
            | [] => RvStatus (error_body
                      ("No comments with post_id = " +:+ pretty post_id)) 404
            | _ => RvStatus (JList data) 200
            end) ∧
  Forall2 (λ r d, comment_row_to_json r = Normal d) rows data ∧
  db_committed (reddit_request (get_comments_for_post post_id) w).2 = s'.
Proof.
  intros Hg Hr Hsql Hdata.
  set (k := (rows ← fetchall;
             match rows with
             | [] => Ret (RvStatus (error_body
                       ("No comments with post_id = " +:+ pretty post_id)) 404)
             | _ => data ← lift (comments_data rows); Ret (RvStatus (JList data) 200)
             end) : work view_rv).
  assert (Hk : run_work k (mkCursor (length (conns w)) false rows n)
                 (after_statement (length (conns w)) sql_select_comments s'
                    (session_start w)) =
     (Normal (match rows with
              | [] => RvStatus (error_body
                        ("No comments with post_id = " +:+ pretty post_id)) 404
              | _ => RvStatus (JList data) 200
              end),
      mkCursor (length (conns w)) false [] n,
      after_statement (length (conns w)) sql_select_comments s' (session_start w))).
  { unfold k. cbn [mbind work_mbind work_bind fetchall run_work cur_closed cur_rows
      cur_conn cur_rowcount].
    destruct rows as [|r rows]; [reflexivity|]. rewrite Hdata. reflexivity. }
  destruct (request_fresh_one_statement sql_select_comments
              (ArgsTuple [JInt post_id]) [JInt post_id] k w s' rows n _ _
              Hg Hr eq_refl Hsql Hk) as (Hres & Hdb & _).
  split; [exact Hres|]. split; [by apply comments_data_rows|exact Hdb].
Qed.

(** X17: every call of a view decorated by the venmo [with_db_connection],
    in a request context without a cached connection, raises
    [AttributeError]: [get_db_connection] evaluates
    [psycopg2.extras.DictCursor] while the module imports [psycopg2]
    alone, its [except] catches [OperationalError] only and the call
    stands outside the decorator's [try].  [psycopg2.connect] is not
    called, no cursor is opened, the view does not run (the misspelt
    count statement of [get_users] is never sent) and nothing changes. *)
Theorem venmo_decorated_call_raises_attribute_error (f : work view_rv) w :
  g_conn w = None →
  venmo_get_db_connection w =
    (Raised (mkExn AttributeError "module 'psycopg2' has no attribute 'extras'"), w) ∧
  venmo_request f w =
    (Raised (mkExn AttributeError "module 'psycopg2' has no attribute 'extras'"), w) ∧
  request_events w (venmo_request f w).2 = [].
Proof.
  intros Hg.
  assert (Hget : venmo_get_db_connection w =
    (Raised (mkExn AttributeError "module 'psycopg2' has no attribute 'extras'"), w)).
  { unfold venmo_get_db_connection. by rewrite Hg. }
  split; [done|]. unfold venmo_request.
  rewrite venmo_with_db_connection_raises by done. split; [done|].
  unfold request_events. simpl. by rewrite drop_all.
Qed.

End view_more.

Section pagination_more.
Context {U : UnicodeData}.

Lemma page_parameters_positive args page_size page_number :
  page_parameters args = Normal (page_size, page_number) →
  0 < page_size ∧ 0 < page_number.
Proof.
  unfold page_parameters.
  destruct (int_arg args "pageSize" 5) as [ps|e]; [|done].
  destruct (int_arg args "pageNumber" 1) as [pn|e]; [|done].
  destruct (Z.leb_spec ps 0); [done|].
  destruct (Z.leb_spec pn 0); [done|].
  simpl. intros [= <- <-]. lia.
Qed.

(** X18: the pagination step never raises: it gives either the 400 response
    or a page; a page has a positive limit, a positive page number and
    the non-negative offset [(pageNumber - 1) * limit]; parameters that
    are absent read as page size 5 and page number 1. *)
Theorem get_users_pagination_page_bounds (args : gmap string string) :
  (∃ p, get_users_pagination args = Normal p) ∧
  (∀ limit offset page_number,
     get_users_pagination args = Normal (Page limit offset page_number) →
     0 < limit ∧ 0 < page_number ∧ 0 <= offset ∧
     offset = (page_number - 1) * limit) ∧
  (args !! "pageSize" = None → args !! "pageNumber" = None →
   get_users_pagination args = Normal (Page 5 0 1)).
Proof.
  unfold get_users_pagination. split; [|split].
  - destruct (page_parameters args) as [[ps pn]|e] eqn:Hp; [by eexists|].
    rewrite decide_True by (by eapply page_parameters_raises). by eexists.
  - intros limit offset page_number.
    destruct (page_parameters args) as [[ps pn]|e] eqn:Hp.
    + intros [= <- <- <-]. apply page_parameters_positive in Hp as [? ?].
      split; [done|]. split; [done|]. split; [nia|done].
    + by destruct (decide _).
  - intros Hs Hn. unfold page_parameters, int_arg. by rewrite Hs, Hn.
Qed.

End pagination_more.

(** ** The further properties on concrete requests *)

Lemma create_post_non_string_field_answers_500_witness :
  (@reddit_request demo_engine (create_post (JDict post_without_title))
     (demo_world true [1; 2])).1 =
    Normal (RvStatus (error_body "'NoneType' object has no attribute 'strip'") 500).
Proof.
  exact (proj1 (@create_post_non_string_field_answers_500 demo_engine
                  post_without_title JNull (demo_world true [1; 2])
                  eq_refl eq_refl eq_refl)).
Defined.

Lemma non_object_body_answers_500_witness :
  (@reddit_request demo_engine (post_comment 1 (JList [])) (demo_world true [1; 2])).1 =
    Normal (RvStatus (error_body "'list' object has no attribute 'get'") 500).
Proof.
  exact (proj1 (proj1 (proj2 (@non_object_body_answers_500 demo_engine (JList []) 1 1
                  (demo_world true [1; 2]) eq_refl eq_refl eq_refl)))).
Defined.

Lemma get_all_post_answers_witness :
  db_committed (@reddit_request demo_engine get_all_post (demo_world true [1; 2])).2
    = [1; 2].
Proof.
  exact (proj1 (proj2 (proj2 (@get_all_post_answers demo_engine
    (demo_world true [1; 2]) [1; 2] (demo_post_row <$> [1; 2]) 2
    [mkJoinRow (SInt 1) (SInt 0) (SText "title") (SText "link") (SText "user")
               SNull SNull SNull SNull;
     mkJoinRow (SInt 2) (SInt 0) (SText "title") (SText "link") (SText "user")
               SNull SNull SNull SNull]
    eq_refl eq_refl eq_refl eq_refl)))).
Defined.

Lemma get_post_answers_witness :
  db_committed (@reddit_request demo_engine (get_post 1) (demo_world true [1])).2 = [1].
Proof.
  refine (proj2 (@get_post_answers demo_engine 1 (demo_world true [1]) [1]
    (demo_post_row <$> [1]) 1
    [mkJoinRow (SInt 1) (SInt 0) (SText "title") (SText "link") (SText "user")
               SNull SNull SNull SNull]
    eq_refl eq_refl eq_refl eq_refl _)).
  apply Forall_singleton. reflexivity.
Defined.

Lemma create_post_answers_witness :
  db_committed (@reddit_request demo_engine (create_post (JDict padded_post))
                  (demo_world true [1; 2])).2 = [1; 2; 3].
Proof.
  refine (proj1 (proj2 (proj2 (@create_post_answers demo_engine padded_post " a " "u" "l"
    (demo_world true [1; 2]) [1; 2; 3] [[SInt 3; SInt 0]] 1
    eq_refl eq_refl eq_refl eq_refl eq_refl _ _ _) eq_refl eq_refl)));
    discriminate.
Defined.

Lemma post_comment_answers_witness :
  db_committed (@reddit_request demo_engine (post_comment 1 (JDict sample_comment))
                  (demo_world true [1; 2])).2 = [1; 2; 3].
Proof.
  exact (proj2 (proj2 (@post_comment_answers demo_engine 1 sample_comment
    (demo_world true [1; 2]) [1; 2; 3] [[SInt 3; SInt 0]] 1
    eq_refl eq_refl eq_refl eq_refl) eq_refl eq_refl)).
Defined.

Lemma edit_comment_answers_witness :
  (@reddit_request (fixed_engine [updated_comment_row])
     (edit_comment 1 7 (JDict sample_comment))
     (fixed_world [updated_comment_row])).1 =
    Normal (RvStatus (JDict (list_to_map
      [("id", JInt 7); ("post_id", JInt 1); ("text", JStr "new text");
       ("username", JStr "bob"); ("upvotes", JInt 4)])) 200).
Proof.
  exact (proj1 (proj2 (proj2 (@edit_comment_answers (fixed_engine [updated_comment_row])
    1 7 sample_comment (fixed_world [updated_comment_row]) () [updated_comment_row] 1
    eq_refl eq_refl eq_refl) eq_refl eq_refl) _ _ _ _ _ _ eq_refl)).
Defined.

Lemma get_comments_for_post_answers_witness :
  (@reddit_request (fixed_engine [stored_comment_row]) (get_comments_for_post 1)
     (fixed_world [stored_comment_row])).1 =
    Normal (RvStatus (JList [JDict (list_to_map
      [("id", JInt 7); ("post_id", JInt 1); ("upvotes", JInt 4);
       ("text", JStr "hi"); ("username", JStr "bob")])]) 200).
Proof.
  exact (proj1 (@get_comments_for_post_answers (fixed_engine [stored_comment_row])
    1 (fixed_world [stored_comment_row]) () [stored_comment_row] 1 _
    eq_refl eq_refl eq_refl eq_refl)).
Defined.

Lemma venmo_decorated_call_raises_attribute_error_witness :
  (@venmo_request demo_engine (@get_users demo_unicode (page_args "5" "3"))
     (demo_world true [1; 2])).1 =
    Raised (mkExn AttributeError "module 'psycopg2' has no attribute 'extras'").
Proof.
  rewrite (proj1 (proj2 (@venmo_decorated_call_raises_attribute_error demo_engine
             (@get_users demo_unicode (page_args "5" "3")) (demo_world true [1; 2])
             eq_refl))).
  reflexivity.
Defined.

Lemma get_users_pagination_page_bounds_witness :
  @get_users_pagination demo_unicode (∅ : gmap string string) = Normal (Page 5 0 1).
Proof.
  exact (proj2 (proj2 (@get_users_pagination_page_bounds demo_unicode ∅))
           eq_refl eq_refl).
Defined.
